(** * Session-aware orchestration: the session registry, the WebSocket hub
      and the SQLite durability layer of SESSION_AWARE_ORCHESTRATION_SYSTEM.py

    The Python program is embedded shallowly.

    - Python values are the type [pyval]; a dataclass instance is a record of
      [pyval] fields, since the annotations of [Session] are not enforced.
    - [Session] instances are mutable and shared: they live in a heap
      ([objects]), and the registry dictionary, the lists returned by
      [get_all_sessions] and the rows loaded from the database hold
      references ([loc]) to them.
    - [self.active_sessions] is an insertion-ordered dictionary: an
      association list with unique keys.
    - [datetime.now()] is an explicit argument [now], counted in
      microseconds; the lock [session_lock] makes every method body atomic,
      so each method is one state transformer.
    - A Python float is the rational it stands for; arithmetic on floats
      rounds to the nearest binary64 value ([binary64]).
    - A coroutine that is suspended in an [await] lets the other tasks of
      the event loop run: what they do to the hub in the meantime is an
      argument too ([interference]).
    - A call either returns or raises: [outcome]; the state it leaves behind
      is returned in both cases.
    - What belongs to the interpreter and its libraries, and not to this
      repository (the JSON codec, ISO timestamps, attributes a dataclass
      instance inherits from its class, SQLite column affinity), is a
      parameter: the class [Runtime].
    - The [print] calls are not modelled. *)

From Stdlib Require Import ZArith QArith Qround Qpower Qabs Lqa.
From Stdlib Require Import Ascii String List Bool Lia.
From Stdlib Require Import DecimalString DecimalZ.
From stdpp Require Import base decidable option strings numbers sets list.

Local Open Scope Z_scope.
Local Open Scope string_scope.

(** ** Python values *)

Set Warnings "-register-all".
Inductive pyval : Type :=
  | VNone
  | VBool (b : bool)
  | VInt (z : Z)
  | VFloat (q : Q)            (* a finite float, by its exact value *)
  | VStr (s : string)
  | VList (l : list pyval)
  | VDict (d : list (string * pyval))   (* keys are unique *)
  | VDatetime (us : Z).       (* a naive datetime, in microseconds *)

Inductive exn : Type :=
  | TypeError (msg : string)
  | AttributeError (msg : string)
  | ValueError (msg : string)
  | OverflowError (msg : string)
  | JSONDecodeError
  | ConnectionClosed
  | ImportError
  | RuntimeError (msg : string)
  | SqliteError (msg : string)      (* sqlite3.Error and its subclasses *)
  | SystemError (msg : string).     (* never raised from a well-formed heap *)

Inductive outcome (A : Type) : Type :=
  | Return (a : A)
  | Raise (e : exn).
Arguments Return {A} a.
Arguments Raise {A} e.

Global Instance outcome_ret : MRet outcome := λ A a, Return a.
Global Instance outcome_bind : MBind outcome := λ A B f m,
  match m with
  | Return a => f a
  | Raise e => Raise e
  end.

(** [str(e)]. The texts the interpreter gives its own exceptions are kept
    short here: the full ones name the type or the function at hand
    ("'list' object has no attribute 'get'") and vary with the version of
    Python. *)
Definition str_exn (e : exn) : string :=
  match e with
  | TypeError m | AttributeError m | ValueError m | OverflowError m
  | RuntimeError m | SqliteError m | SystemError m => m
  | JSONDecodeError => "Expecting value"
  | ConnectionClosed => "no close frame received or sent"
  | ImportError => "No module named sqlite3"
  end.

(** ** Dictionary keys

    [k in d] hashes [k] and compares with [==]: lists and dicts are
    unhashable, and numbers that are equal are the same key whatever their
    type ([1], [1.0] and [True]). *)

Inductive key : Type :=
  | KNone
  | KStr (s : string)
  | KNum (q : Q)              (* reduced *)
  | KDatetime (us : Z).

Global Instance Q_eq_dec : EqDecision Q.
Proof. solve_decision. Defined.
Global Instance key_eq_dec : EqDecision key.
Proof. solve_decision. Defined.

Definition dict_key (v : pyval) : option key :=
  match v with
  | VNone => Some KNone
  | VBool b => Some (KNum (Qred (inject_Z (if b then 1 else 0))))
  | VInt z => Some (KNum (Qred (inject_Z z)))
  | VFloat q => Some (KNum (Qred q))
  | VStr s => Some (KStr s)
  | VDatetime us => Some (KDatetime us)
  | VList _ | VDict _ => None
  end.

Definition unhashable : exn := TypeError "unhashable type".

Section Dict.
Context {K : Type} `{EqDecision K} {V : Type}.

(** [d.get(k)] *)
Fixpoint dict_get (k : K) (d : list (K * V)) : option V :=
  match d with
  | [] => None
  | (k', v) :: d' => if decide (k = k') then Some v else dict_get k d'
  end.

(** [d[k] = v]: an existing key keeps its place, a new one goes last. *)
Fixpoint dict_set (k : K) (v : V) (d : list (K * V)) : list (K * V) :=
  match d with
  | [] => [(k, v)]
  | (k', v') :: d' =>
      if decide (k = k') then (k', v) :: d' else (k', v') :: dict_set k v d'
  end.

(** [del d[k]] *)
Definition dict_del (k : K) (d : list (K * V)) : list (K * V) :=
  filter (λ p, p.1 ≠ k) d.

Definition dict_keys (d : list (K * V)) : list K := d.*1.
Definition dict_values (d : list (K * V)) : list V := d.*2.
End Dict.

(** ** The data model *)

Record Session : Type := mkSession {
  session_id : pyval;
  user_id : pyval;
  status : pyval;
  current_task : pyval;
  progress : pyval;
  last_activity : pyval;
  resources_used : pyval
}.

Definition loc : Type := nat.

Record SessionManager : Type := mkSessionManager {
  objects : list Session;               (* the Session instances *)
  active_sessions : list (key * loc)    (* session id to instance *)
}.

(** [SessionManager.__init__] *)
Definition SessionManager_init : SessionManager :=
  {| objects := []; active_sessions := [] |}.

(** The record a session id stands for, read through the reference. *)
Definition record_of (sm : SessionManager) (k : key) : option Session :=
  l ← dict_get k (active_sessions sm); objects sm !! l.

(** ** SessionManager.register_session *)

Definition register_session (now : Z) (session_id user_id : pyval)
    (sm : SessionManager) : SessionManager * outcome bool :=
  match dict_key session_id with
  | None => (sm, Raise unhashable)
  | Some k =>
      match dict_get k (active_sessions sm) with
      | None =>
          let s := {| session_id := session_id;
                      user_id := user_id;
                      status := VStr "active";
                      current_task := VStr "initializing";
                      progress := VFloat 0;
                      last_activity := VDatetime now;
                      resources_used := VDict [] |} in
          ({| objects := objects sm ++ [s];
              active_sessions :=
                dict_set k (length (objects sm)) (active_sessions sm) |},
           Return true)
      | Some _ => (sm, Return false)
      end
  end.

(** ** Attributes of a Session instance *)

Inductive field : Type :=
  | Fsession_id | Fuser_id | Fstatus | Fcurrent_task
  | Fprogress | Flast_activity | Fresources_used.

Definition field_of_name (name : string) : option field :=
  if (name =? "session_id")%string then Some Fsession_id
  else if (name =? "user_id")%string then Some Fuser_id
  else if (name =? "status")%string then Some Fstatus
  else if (name =? "current_task")%string then Some Fcurrent_task
  else if (name =? "progress")%string then Some Fprogress
  else if (name =? "last_activity")%string then Some Flast_activity
  else if (name =? "resources_used")%string then Some Fresources_used
  else None.

Definition get_field (f : field) (s : Session) : pyval :=
  match f with
  | Fsession_id => session_id s
  | Fuser_id => user_id s
  | Fstatus => status s
  | Fcurrent_task => current_task s
  | Fprogress => progress s
  | Flast_activity => last_activity s
  | Fresources_used => resources_used s
  end.

Definition set_field (f : field) (v : pyval) (s : Session) : Session :=
  match f with
  | Fsession_id =>
      mkSession v (user_id s) (status s) (current_task s) (progress s)
        (last_activity s) (resources_used s)
  | Fuser_id =>
      mkSession (session_id s) v (status s) (current_task s) (progress s)
        (last_activity s) (resources_used s)
  | Fstatus =>
      mkSession (session_id s) (user_id s) v (current_task s) (progress s)
        (last_activity s) (resources_used s)
  | Fcurrent_task =>
      mkSession (session_id s) (user_id s) (status s) v (progress s)
        (last_activity s) (resources_used s)
  | Fprogress =>
      mkSession (session_id s) (user_id s) (status s) (current_task s) v
        (last_activity s) (resources_used s)
  | Flast_activity =>
      mkSession (session_id s) (user_id s) (status s) (current_task s)
        (progress s) v (resources_used s)
  | Fresources_used =>
      mkSession (session_id s) (user_id s) (status s) (current_task s)
        (progress s) (last_activity s) v
  end.

(** ** Values SQLite stores *)

Inductive sqlval : Type :=
  | SNull
  | SInteger (z : Z)
  | SReal (q : Q)
  | SText (s : string).

Global Instance sqlval_eq_dec : EqDecision sqlval.
Proof. solve_decision. Defined.

(** The affinities of the columns of the table [sessions]: TEXT, REAL, and
    NUMERIC for the columns declared TIMESTAMP. *)
Inductive affinity : Type := TEXT | REAL | NUMERIC.

(** What [json.dumps] accepts. *)
Fixpoint serializable (v : pyval) : bool :=
  match v with
  | VList l => forallb serializable l
  | VDict d => forallb (λ p, let '(_, x) := p in serializable x) d
  | VDatetime _ => false
  | _ => true
  end.

(** ** The interpreter and its libraries

    - [json_loads] is [json.loads], [None] standing for JSONDecodeError;
      [json_dumps] is [json.dumps] on the values it accepts, and what it
      writes, [json.loads] reads.
    - [isoformat] and [fromisoformat] are those of [datetime];
      [adapt_datetime] is the text [sqlite3] binds a datetime parameter as.
    - [inherited_attr name] holds when [name] is an attribute a Session
      instance gets from its class ([__class__], [__dict__], [__eq__], ...):
      [hasattr] is true of it although it is no field, and what [setattr]
      then does ([setattr_inherited]) is the interpreter's business.
    - [apply_affinity] is the conversion SQLite applies to a value stored
      in a column: text stays text in a TEXT column, a real stays a real in
      a REAL column, an ISO timestamp is no number and stays text in a
      NUMERIC column, NULL stays NULL. *)
Class Runtime : Type := {
  json_loads : string → option pyval;
  json_dumps : pyval → string;
  json_loads_dumps v :
    serializable v = true → is_Some (json_loads (json_dumps v));
  isoformat : Z → string;
  fromisoformat : string → option Z;
  fromisoformat_isoformat t : fromisoformat (isoformat t) = Some t;
  adapt_datetime : Z → string;
  inherited_attr : string → bool;
  setattr_inherited : string → pyval → Session → outcome Session;
  apply_affinity : affinity → sqlval → sqlval;
  affinity_null a : apply_affinity a SNull = SNull;
  affinity_text s : apply_affinity TEXT (SText s) = SText s;
  affinity_real q : apply_affinity REAL (SReal q) = SReal q;
  affinity_timestamp t :
    apply_affinity NUMERIC (SText (isoformat t)) = SText (isoformat t)
}.

Section Store.
Context `{Runtime}.

(** [hasattr(session, name)] *)
Definition hasattr (name : string) : bool :=
  match field_of_name name with
  | Some _ => true
  | None => inherited_attr name
  end.

(** [setattr(session, name, value)], called where [hasattr] holds. *)
Definition setattr (s : Session) (name : string) (value : pyval)
    : outcome Session :=
  match field_of_name name with
  | Some f => Return (set_field f value s)
  | None => setattr_inherited name value s
  end.

(** The loop of [update_session] over [kwargs.items()]. The session is
    changed in place: what was set before an exception stays set. *)
Fixpoint update_attrs (kwargs : list (string * pyval)) (s : Session)
    : Session * outcome unit :=
  match kwargs with
  | [] => (s, Return tt)
  | (name, value) :: rest =>
      if hasattr name then
        match setattr s name value with
        | Return s' => update_attrs rest s'
        | Raise e => (s, Raise e)
        end
      else update_attrs rest s
  end.

(** A call [update_session(session_id, **kwargs)] fails before the body
    runs when [kwargs] names a parameter of the method. *)
Definition binds_parameter (kwargs : list (string * pyval)) : bool :=
  existsb (λ p, (p.1 =? "self")%string || (p.1 =? "session_id")%string)
    kwargs.

Definition multiple_values : exn :=
  TypeError "update_session() got multiple values for argument".

(** ** SessionManager.update_session *)
Definition update_session (now : Z) (session_id : pyval)
    (kwargs : list (string * pyval)) (sm : SessionManager)
    : SessionManager * outcome bool :=
  if binds_parameter kwargs then (sm, Raise multiple_values)
  else
    match dict_key session_id with
    | None => (sm, Raise unhashable)
    | Some k =>
        match dict_get k (active_sessions sm) with
        | Some l =>
            match objects sm !! l with
            | Some session =>
                match update_attrs kwargs session with
                | (s', Return _) =>
                    ({| objects :=
                          <[l := set_field Flast_activity (VDatetime now) s']>
                            (objects sm);
                        active_sessions := active_sessions sm |},
                     Return true)
                | (s', Raise e) =>
                    ({| objects := <[l := s']> (objects sm);
                        active_sessions := active_sessions sm |},
                     Raise e)
                end
            | None => (sm, Raise (SystemError "dangling reference"))
            end
        | None => (sm, Return false)
        end
    end.
End Store.

(** ** SessionManager.get_session_status *)
Definition get_session_status (session_id : pyval) (sm : SessionManager)
    : outcome (option loc) :=
  match dict_key session_id with
  | None => Raise unhashable
  | Some k => Return (dict_get k (active_sessions sm))
  end.

(** ** SessionManager.get_all_sessions: a new list of the same instances *)
Definition get_all_sessions (sm : SessionManager) : list loc :=
  dict_values (active_sessions sm).

(** ** SessionManager.cleanup_inactive_sessions *)

(** *** Floats

    [floor (log2 |x|)], for [x] other than 0. *)
Definition ilog2 (x : Q) : Z :=
  let e := Z.log2 (Z.abs (Qnum x)) - Z.log2 (Zpos (Qden x)) in
  if Qle_bool (2 ^ e) (Qabs x) then e else e - 1.

(** The integer nearest to [x]; of two that are as near, the even one. *)
Definition round_half_even (x : Q) : Z :=
  let f := Qfloor x in
  match (x - inject_Z f ?= 1 # 2)%Q with
  | Lt => f
  | Gt => f + 1
  | Eq => if Z.even f then f else f + 1
  end.

(** The binary64 value nearest to [x], ties to even: [x] is scaled to 53
    bits before the point and rounded there. The exponent is not bounded:
    the quotients of the sweep lie between 10^-8 and 10^12 in magnitude,
    far from the subnormal numbers and from overflow. *)
Definition binary64 (x : Q) : Q :=
  if Qeq_bool x 0 then 0%Q
  else let k := 52 - ilog2 x in
       (inject_Z (round_half_even (x * 2 ^ k)) * 2 ^ (- k))%Q.

(** [timedelta.total_seconds()]: the microseconds, an int, over [10**6];
    the true division of two ints is correctly rounded. *)
Definition total_seconds (us : Z) : Q := binary64 (us # 1000000).

(** [datetime.max - datetime.min] is one microsecond less: the datetimes
    are those of the years 1 to 9999. *)
Definition datetime_span : Z := 315537897600000000.

(** [(current_time - last_activity).total_seconds() / 60], a float. Two
    datetimes are less than [datetime_span] apart; on readings that are
    further apart, which are readings of no two datetimes, the quotient is
    left exact. *)
Definition time_diff (current_time t : Z) : Q :=
  let us := current_time - t in
  if (Z.abs us <? datetime_span)%Z then (binary64 (total_seconds us / 60))%Q
  else ((us # 1000000) / 60)%Q.

Definition unsupported_operand : exn :=
  TypeError "unsupported operand type(s) for -".

(** The first loop: the ids whose session has been idle for more than
    [timeout_minutes]. *)
Fixpoint inactive_sessions (objs : list Session) (current_time : Z)
    (timeout_minutes : Z) (items : list (key * loc))
    : outcome (list key) :=
  match items with
  | [] => Return []
  | (session_id, l) :: rest =>
      match objs !! l with
      | None => Raise (SystemError "dangling reference")
      | Some session =>
          match last_activity session with
          | VDatetime t =>
              match inactive_sessions objs current_time timeout_minutes rest
              with
              | Return ids =>
                  if Qlt_le_dec (inject_Z timeout_minutes)
                       (time_diff current_time t)
                  then Return (session_id :: ids)
                  else Return ids
              | Raise e => Raise e
              end
          | _ => Raise unsupported_operand
          end
      end
  end.

(** The method has no [return]: it yields [None]. *)
Definition cleanup_inactive_sessions (now : Z) (timeout_minutes : Z)
    (sm : SessionManager) : SessionManager * outcome pyval :=
  match inactive_sessions (objects sm) now timeout_minutes
          (active_sessions sm) with
  | Raise e => (sm, Raise e)
  | Return ids =>
      ({| objects := objects sm;
          active_sessions :=
            foldl (λ d session_id, dict_del session_id d)
              (active_sessions sm) ids |},
       Return VNone)
  end.

(** ** The WebSocket hub *)

Definition client : Type := nat.

(** The connections, as the server sees them: [closed] are the sockets on
    which [send] raises ConnectionClosed, [delivered] the frames sent so
    far, oldest first. *)
Record Network : Type := mkNetwork {
  closed : list client;
  delivered : list (client * string)
}.

(** [await websocket.send(frame)] *)
Definition send (websocket : client) (frame : string) (net : Network)
    : Network * outcome unit :=
  if bool_decide (websocket ∈ closed net) then (net, Raise ConnectionClosed)
  else ({| closed := closed net;
           delivered := delivered net ++ [(websocket, frame)] |},
        Return tt).

Record SessionWebSocketServer : Type := mkServer {
  session_manager : SessionManager;
  port : Z;
  clients : list client       (* a set: no client twice *)
}.

Definition hub : Type := SessionWebSocketServer * Network.

Definition with_manager (srv : SessionWebSocketServer) (sm : SessionManager)
    : SessionWebSocketServer :=
  {| session_manager := sm; port := port srv; clients := clients srv |}.

(** [data.get(name)] on a parsed object, [None] when the name is absent. *)
Definition py_get (d : list (string * pyval)) (name : string) : pyval :=
  default VNone (dict_get name d).

(** [command == 'literal'] *)
Definition is_str (v : pyval) (literal : string) : bool :=
  match v with
  | VStr s => (s =? literal)%string
  | _ => false
  end.

Section Hub.
Context `{Runtime}.

(** [json.dumps(v)] *)
Definition dumps (v : pyval) : outcome string :=
  if serializable v then Return (json_dumps v)
  else Raise (TypeError "Object is not JSON serializable").

(** [await websocket.send(json.dumps(v))] *)
Definition send_json (websocket : client) (v : pyval) (st : hub)
    : hub * outcome unit :=
  match dumps v with
  | Raise e => (st, Raise e)
  | Return frame =>
      let '(net', r) := send websocket frame st.2 in ((st.1, net'), r)
  end.

(** The entry of [get_sessions] for one session. *)
Definition session_entry (session : Session) : outcome pyval :=
  match last_activity session with
  | VDatetime t =>
      Return (VDict [("session_id", session_id session);
                     ("user_id", user_id session);
                     ("status", status session);
                     ("current_task", current_task session);
                     ("progress", progress session);
                     ("last_activity", VStr (isoformat t));
                     ("resources_used", resources_used session)])
  | _ => Raise (AttributeError "object has no attribute 'isoformat'")
  end.

Fixpoint session_data (objs : list Session) (sessions : list loc)
    : outcome (list pyval) :=
  match sessions with
  | [] => Return []
  | l :: rest =>
      match objs !! l with
      | None => Raise (SystemError "dangling reference")
      | Some session =>
          match session_entry session with
          | Raise e => Raise e
          | Return entry =>
              match session_data objs rest with
              | Raise e => Raise e
              | Return entries => Return (entry :: entries)
              end
          end
      end
  end.

(** The [try] block of [handle_message]. *)
Definition handle_command (now : Z) (websocket : client) (message : string)
    (st : hub) : hub * outcome unit :=
  match json_loads message with
  | None => (st, Raise JSONDecodeError)
  | Some (VDict data) =>
      let command := py_get data "command" in
      if is_str command "register_session" then
        let session_id := py_get data "session_id" in
        let user_id := py_get data "user_id" in
        match register_session now session_id user_id
                (session_manager st.1) with
        | (sm, Raise e) => ((with_manager st.1 sm, st.2), Raise e)
        | (sm, Return success) =>
            send_json websocket
              (VDict [("type", VStr "registration_response");
                      ("success", VBool success);
                      ("session_id", session_id)])
              (with_manager st.1 sm, st.2)
        end
      else if is_str command "update_session" then
        let session_id := py_get data "session_id" in
        match default (VDict []) (dict_get "updates" data) with
        | VDict updates =>
            match update_session now session_id updates
                    (session_manager st.1) with
            | (sm, Raise e) => ((with_manager st.1 sm, st.2), Raise e)
            | (sm, Return success) =>
                send_json websocket
                  (VDict [("type", VStr "update_response");
                          ("success", VBool success);
                          ("session_id", session_id)])
                  (with_manager st.1 sm, st.2)
            end
        | _ =>
            (st, Raise (TypeError "argument after ** must be a mapping"))
        end
      else if is_str command "get_sessions" then
        let sessions := get_all_sessions (session_manager st.1) in
        match session_data (objects (session_manager st.1)) sessions with
        | Raise e => (st, Raise e)
        | Return entries =>
            send_json websocket
              (VDict [("type", VStr "sessions_data");
                      ("sessions", VList entries)])
              st
        end
      else (st, Return tt)
  | Some _ => (st, Raise (AttributeError "object has no attribute 'get'"))
  end.

Definition error_reply (message : string) : pyval :=
  VDict [("type", VStr "error"); ("message", VStr message)].

(** ** SessionWebSocketServer.handle_message *)
Definition handle_message (now : Z) (websocket : client) (message : string)
    (st : hub) : hub * outcome unit :=
  match handle_command now websocket message st with
  | (st', Return _) => (st', Return tt)
  | (st', Raise JSONDecodeError) =>
      send_json websocket (error_reply "Invalid JSON format") st'
  | (st', Raise e) => send_json websocket (error_reply (str_exn e)) st'
  end.

(** The loop of [broadcast_update], run without interruption: no other
    task runs while the loop is suspended in [send], so the set it walks
    and the sockets stay as they are ([broadcast_iter] is the loop among
    other tasks). Only ConnectionClosed is caught. *)
Fixpoint broadcast_loop (message_str : string) (cs : list client)
    (disconnected_clients : list client) (net : Network)
    : (Network * list client) * outcome unit :=
  match cs with
  | [] => ((net, disconnected_clients), Return tt)
  | c :: rest =>
      match send c message_str net with
      | (net', Return _) =>
          broadcast_loop message_str rest disconnected_clients net'
      | (net', Raise ConnectionClosed) =>
          broadcast_loop message_str rest (c :: disconnected_clients) net'
      | (net', Raise e) => ((net', disconnected_clients), Raise e)
      end
  end.

(** ** SessionWebSocketServer.broadcast_update, run without interruption *)
Definition broadcast_update (message : pyval) (st : hub)
    : hub * outcome unit :=
  match clients st.1 with
  | [] => (st, Return tt)
  | _ =>
      match dumps message with
      | Raise e => (st, Raise e)
      | Return message_str =>
          match broadcast_loop message_str (clients st.1) [] st.2 with
          | ((net', _), Raise e) => ((st.1, net'), Raise e)
          | ((net', disconnected_clients), Return _) =>
              (({| session_manager := session_manager st.1;
                   port := port st.1;
                   clients :=
                     filter (λ c, c ∉ disconnected_clients)
                       (clients st.1) |},
                net'),
               Return tt)
          end
      end
  end.
End Hub.

(** ** The durability layer *)

(** A row of the table [sessions], as stored. *)
Record row : Type := mkRow {
  c_session_id : sqlval;        (* TEXT PRIMARY KEY *)
  c_user_id : sqlval;           (* TEXT *)
  c_status : sqlval;            (* TEXT *)
  c_current_task : sqlval;      (* TEXT *)
  c_progress : sqlval;          (* REAL *)
  c_created_at : sqlval;        (* TIMESTAMP *)
  c_last_activity : sqlval;     (* TIMESTAMP *)
  c_resources_used : sqlval     (* TEXT *)
}.

(** What [SessionDatabase] works on: whether [import sqlite3] succeeds,
    whether the database file can be opened and written, and the rows of
    the table, in rowid order. *)
Record Storage : Type := mkStorage {
  sqlite3_available : bool;
  database_fault : bool;
  sessions_table : list row
}.

Definition with_table (db : Storage) (t : list row) : Storage :=
  {| sqlite3_available := sqlite3_available db;
     database_fault := database_fault db;
     sessions_table := t |}.

(** A new row conflicts with a stored one on the primary key; NULL keys
    never conflict. *)
Definition pk_conflict (new old : row) : bool :=
  match c_session_id new with
  | SNull => false
  | id => bool_decide (c_session_id old = id)
  end.

(** [INSERT OR REPLACE]: the conflicting row goes, the new one is added. *)
Definition insert_or_replace (r : row) (t : list row) : list row :=
  filter (λ old, pk_conflict r old = false) t ++ [r].

(** What a fetched cell is in Python. *)
Definition py_of_sql (c : sqlval) : pyval :=
  match c with
  | SNull => VNone
  | SInteger z => VInt z
  | SReal q => VFloat q
  | SText s => VStr s
  end.

(** [if row[7]] *)
Definition truthy (c : sqlval) : bool :=
  match c with
  | SNull => false
  | SInteger z => negb (z =? 0)%Z
  | SReal q => negb (Qeq_bool q 0)
  | SText s => negb (s =? EmptyString)%string
  end.

Definition database_error : exn := SqliteError "unable to open database file".

Section Durability.
Context `{Runtime}.

(** How [sqlite3] binds a Python value to a [?]. *)
Definition adapt (v : pyval) : outcome sqlval :=
  match v with
  | VNone => Return SNull
  | VBool b => Return (SInteger (if b then 1 else 0))
  | VInt z =>
      if bool_decide (- 2 ^ 63 ≤ z < 2 ^ 63) then Return (SInteger z)
      else Raise (OverflowError
                    "Python int too large to convert to SQLite INTEGER")
  | VFloat q => Return (SReal q)
  | VStr s => Return (SText s)
  | VDatetime t => Return (SText (adapt_datetime t))
  | VList _ | VDict _ =>
      Raise (SqliteError "Error binding parameter: type is not supported")
  end.

(** The row [save_session] writes for a session. *)
Definition session_row (now : Z) (session : Session) : outcome row :=
  match last_activity session with
  | VDatetime t =>
      resources ← dumps (resources_used session);
      id ← adapt (session_id session);
      user ← adapt (user_id session);
      st ← adapt (status session);
      task ← adapt (current_task session);
      prog ← adapt (progress session);
      mret {| c_session_id := apply_affinity TEXT id;
              c_user_id := apply_affinity TEXT user;
              c_status := apply_affinity TEXT st;
              c_current_task := apply_affinity TEXT task;
              c_progress := apply_affinity REAL prog;
              c_created_at := apply_affinity NUMERIC (SText (isoformat now));
              c_last_activity := apply_affinity NUMERIC (SText (isoformat t));
              c_resources_used := apply_affinity TEXT (SText resources) |}
  | _ => Raise (AttributeError "object has no attribute 'isoformat'")
  end.

(** ** SessionDatabase.save_session: only ImportError is caught. *)
Definition save_session (now : Z) (session : Session) (db : Storage)
    : Storage * outcome unit :=
  if negb (sqlite3_available db) then (db, Return tt)
  else if database_fault db then (db, Raise database_error)
  else
    match session_row now session with
    | Raise e => (db, Raise e)
    | Return r =>
        (with_table db (insert_or_replace r (sessions_table db)), Return tt)
    end.

(** The Session built from a fetched row. *)
Definition load_row (r : row) : outcome Session :=
  last ← match c_last_activity r with
         | SText s =>
             match fromisoformat s with
             | Some t => Return (VDatetime t)
             | None => Raise (ValueError "Invalid isoformat string")
             end
         | _ => Raise (TypeError "fromisoformat: argument must be str")
         end;
  resources ← (if truthy (c_resources_used r) then
                 match c_resources_used r with
                 | SText s =>
                     match json_loads s with
                     | Some v => Return v
                     | None => Raise JSONDecodeError
                     end
                 | _ => Raise (TypeError "the JSON object must be str")
                 end
               else Return (VDict []));
  mret {| session_id := py_of_sql (c_session_id r);
          user_id := py_of_sql (c_user_id r);
          status := py_of_sql (c_status r);
          current_task := py_of_sql (c_current_task r);
          progress := py_of_sql (c_progress r);
          last_activity := last;
          resources_used := resources |}.

Fixpoint load_rows (rows : list row) : outcome (list Session) :=
  match rows with
  | [] => Return []
  | r :: rest =>
      session ← load_row r;
      sessions ← load_rows rest;
      mret (session :: sessions)
  end.

(** ** SessionDatabase.load_sessions: only ImportError is caught. *)
Definition load_sessions (db : Storage) : outcome (list Session) :=
  if negb (sqlite3_available db) then Return []
  else if database_fault db then Raise database_error
  else load_rows (sessions_table db).

(** ** SessionOrchestrator.shutdown *)
Fixpoint save_all (now : Z) (objs : list Session) (sessions : list loc)
    (db : Storage) : Storage * outcome unit :=
  match sessions with
  | [] => (db, Return tt)
  | l :: rest =>
      match objs !! l with
      | None => (db, Raise (SystemError "dangling reference"))
      | Some session =>
          match save_session now session db with
          | (db', Return _) => save_all now objs rest db'
          | (db', Raise e) => (db', Raise e)
          end
      end
  end.

Definition shutdown (now : Z) (sm : SessionManager) (db : Storage)
    : Storage * outcome unit :=
  save_all now (objects sm) (get_all_sessions sm) db.

(** ** SessionOrchestrator.start_orchestration, up to the start of the
    server: every loaded session is put in the registry under its id. *)
Fixpoint load_existing (existing_sessions : list Session)
    (sm : SessionManager) : SessionManager * outcome unit :=
  match existing_sessions with
  | [] => (sm, Return tt)
  | session :: rest =>
      match dict_key (session_id session) with
      | None => (sm, Raise unhashable)
      | Some k =>
          load_existing rest
            {| objects := objects sm ++ [session];
               active_sessions :=
                 dict_set k (length (objects sm)) (active_sessions sm) |}
      end
  end.

Definition start_orchestration (db : Storage) (sm : SessionManager)
    : SessionManager * outcome unit :=
  match load_sessions db with
  | Raise e => (sm, Raise e)
  | Return existing_sessions => load_existing existing_sessions sm
  end.
End Durability.

(** ** A small runtime, to run the model on concrete inputs

    The codec is a table over the messages of the examples; a value is
    written in a notation of its own; a timestamp is written as the letter T
    and the number of microseconds; the inherited attributes are the names
    in double underscores, and setting one is refused. *)
Module Example.
Definition decimal (z : Z) : string :=
  DecimalString.NilEmpty.string_of_int (Z.to_int z).

Definition parse_decimal (s : string) : option Z :=
  Z.of_int <$> DecimalString.NilEmpty.int_of_string s.

(** A timestamp is written as the letter T and the microseconds. *)
Definition timestamp (t : Z) : string := String "T"%char (decimal t).

Definition parse_timestamp (s : string) : option Z :=
  match s with
  | String "T"%char digits => parse_decimal digits
  | _ => None
  end.

Fixpoint render (v : pyval) : string :=
  match v with
  | VNone => "null"
  | VBool b => if b then "true" else "false"
  | VInt z => "i" ++ decimal z
  | VFloat q => "f" ++ decimal (Qnum q) ++ "/" ++ decimal (Zpos (Qden q))
  | VStr s => "s" ++ s
  | VList l => "[" ++ String.concat "," (map render l) ++ "]"
  | VDict d =>
      "{" ++ String.concat ","
               (map (λ p, let '(k, x) := p in k ++ ":" ++ render x) d)
          ++ "}"
  | VDatetime t => "t" ++ decimal t
  end.

Definition malformed : string := "<<<".

Definition parse (s : string) : option pyval :=
  if (s =? malformed)%string then None
  else if (s =? "register s1 u1")%string then
    Some (VDict [("command", VStr "register_session");
                 ("session_id", VStr "s1"); ("user_id", VStr "u1")])
  else if (s =? "register")%string then
    Some (VDict [("command", VStr "register_session")])
  else if (s =? "update s1 progress")%string then
    Some (VDict [("command", VStr "update_session");
                 ("session_id", VStr "s1");
                 ("updates", VDict [("progress", VFloat (1 # 2))])])
  else if (s =? "get")%string then
    Some (VDict [("command", VStr "get_sessions")])
  else if (s =? "dance")%string then
    Some (VDict [("command", VStr "dance")])
  else if (s =? "[1]")%string then Some (VList [VInt 1])
  else if (s =? "{}")%string then Some (VDict [])
  else Some VNone.

Definition dunder (name : string) : bool :=
  match name with
  | String "_"%char (String "_"%char _) => true
  | _ => false
  end.

Definition widen (a : affinity) (c : sqlval) : sqlval :=
  match a, c with
  | REAL, SInteger z => SReal (inject_Z z)
  | _, _ => c
  end.

Global Program Instance runtime : Runtime := {|
  json_loads := parse;
  json_dumps := render;
  isoformat := timestamp;
  fromisoformat := parse_timestamp;
  adapt_datetime := timestamp;
  inherited_attr := dunder;
  setattr_inherited := λ _ _ _, Raise (TypeError "cannot set attribute");
  apply_affinity := widen
|}.
Next Obligation.
  intros v _.
  assert (Hm : (render v =? malformed)%string = false)
    by (destruct v as [| [] | | | | | |]; reflexivity).
  unfold parse. rewrite Hm. repeat case_match; eauto.
Qed.
Next Obligation.
  intros t. unfold parse_timestamp, timestamp, parse_decimal, decimal.
  rewrite DecimalString.NilEmpty.isi. simpl. f_equal. apply DecimalZ.of_to.
Qed.
Next Obligation. by intros []. Qed.
Next Obligation. done. Qed.
Next Obligation. done. Qed.
Next Obligation. done. Qed.

(** A manager with the one session "s1" of "u1", registered at 1000. *)
Definition one_session : SessionManager :=
  (register_session 1000 (VStr "s1") (VStr "u1") SessionManager_init).1.

(** A hub with no session; the client 7 is connected. *)
Definition fresh_hub : hub :=
  ({| session_manager := SessionManager_init; port := 8765;
      clients := [7%nat] |},
   {| closed := []; delivered := [] |}).

(** A hub with four clients, of which client 3 has gone. *)
Definition four_clients : hub :=
  ({| session_manager := one_session; port := 8765;
      clients := [1; 2; 3; 4]%nat |},
   {| closed := [3%nat]; delivered := [] |}).

(** The record of "s1" in [one_session]. *)
Definition open_clients : hub :=
  ({| session_manager := one_session; port := 8765;
      clients := [1; 2; 3; 4]%nat |},
   {| closed := []; delivered := [] |}).

Definition s1 : Session :=
  {| session_id := VStr "s1"; user_id := VStr "u1";
     status := VStr "active"; current_task := VStr "initializing";
     progress := VFloat 0; last_activity := VDatetime 1000;
     resources_used := VDict [] |}.

(** The row an earlier run left for a session "s0", since evicted. *)
Definition stale_row : row :=
  {| c_session_id := SText "s0"; c_user_id := SText "u0";
     c_status := SText "idle"; c_current_task := SText "done";
     c_progress := SReal 1;
     c_created_at := SText (timestamp 10);
     c_last_activity := SText (timestamp 20);
     c_resources_used := SText "{}" |}.


Definition stale_storage : Storage :=
  {| sqlite3_available := true; database_fault := false;
     sessions_table := [stale_row] |}.

(** The database file cannot be opened. *)
Definition broken_storage : Storage :=
  {| sqlite3_available := true; database_fault := true;
     sessions_table := [] |}.

(** The module [sqlite3] is missing. *)
Definition no_sqlite3 : Storage :=
  {| sqlite3_available := false; database_fault := false;
     sessions_table := [] |}.

(** The event the server broadcasts after a sweep at [now]. *)
Definition sessions_cleaned (now : Z) : pyval :=
  VDict [("type", VStr "sessions_cleaned");
         ("timestamp", VStr (timestamp now))].
End Example.

(** ** Notions the statements use *)

(** The registry of a running manager: no id twice, every reference is to
    an instance, and every [last_activity] is a datetime. *)
Definition well_formed (sm : SessionManager) : Prop :=
  NoDup (dict_keys (active_sessions sm)) ∧
  ∀ k l, (k, l) ∈ active_sessions sm →
    ∃ s t, objects sm !! l = Some s ∧ last_activity s = VDatetime t.

(** What the loop of [update_session] does when every name is a field or
    unknown. *)
Definition apply_fields (kwargs : list (string * pyval)) (s : Session)
    : Session :=
  foldl (λ s p, match field_of_name p.1 with
                | Some f => set_field f p.2 s
                | None => s
                end) s kwargs.

(** No name of [kwargs] is an attribute inherited from the class. *)
Definition plain `{Runtime} (kwargs : list (string * pyval)) : Prop :=
  Forall (λ p, inherited_attr p.1 = false) kwargs.

(** A sequence of calls of [update_session], each with its clock reading:
    a call that raises leaves the state it reached. *)
Definition run_updates `{Runtime}
    (calls : list (Z * pyval * list (string * pyval)))
    (sm : SessionManager) : SessionManager :=
  foldl (λ sm c, (update_session c.1.1 c.1.2 c.2 sm).1) sm calls.






(** The mapping does not name the field [user_id]. *)
Definition keeps_user_id (kwargs : list (string * pyval)) : Prop :=
  ∀ v, ("user_id", v) ∉ kwargs.

(** What a caller reads through a list that [get_all_sessions] returned
    to it, when the manager is in state [sm]. *)
Definition snapshot_records (sm : SessionManager) (sessions : list loc)
    : list (option Session) :=
  (λ l, objects sm !! l) <$> sessions.

(** ** The connection handler and the periodic sweep *)

Definition with_clients (srv : SessionWebSocketServer) (cs : list client)
    : SessionWebSocketServer :=
  {| session_manager := session_manager srv; port := port srv;
     clients := cs |}.

(** [self.clients.add(websocket)]: a set holds a client once. *)
Definition add_client (websocket : client) (st : hub) : hub :=
  (with_clients st.1
     (if bool_decide (websocket ∈ clients st.1) then clients st.1
      else clients st.1 ++ [websocket]),
   st.2).

(** A handler either ends as its body did, or its [finally] clause raises
    KeyError, because [set.remove] does not find the client. *)
Inductive handler_outcome : Type :=
  | Handled (r : outcome unit)
  | KeyError.

(** [self.clients.remove(websocket)], in the [finally] clause. *)
Definition remove_client (websocket : client) (r : outcome unit) (st : hub)
    : hub * handler_outcome :=
  if bool_decide (websocket ∈ clients st.1) then
    ((with_clients st.1 (filter (λ c, c ≠ websocket) (clients st.1)), st.2),
     Handled r)
  else (st, KeyError).

(** ** The other tasks of the event loop

    While a coroutine is suspended in an [await], the handlers of the
    other connections run: they start ([add_client]) and end
    ([remove_client]), they answer messages, and sockets close. What they
    do to the hub during one [await] is an [interference]. *)
Definition interference : Type := hub → hub.

(** The peer of [websocket] goes away: [send] raises from now on. *)
Definition close_socket (websocket : client) : interference := λ st,
  (st.1, {| closed := websocket :: closed st.2; delivered := delivered st.2 |}).

(** The connection of [websocket] is lost and its handler ends: the
    [async for] of [register_client] raises ConnectionClosed, which is
    passed over, and the [finally] clause takes the client out of the set. *)
Definition disconnect (websocket : client) : interference := λ st,
  (remove_client websocket (Return tt) (close_socket websocket st)).1.

Definition set_changed_size : exn :=
  RuntimeError "Set changed size during iteration".

(** [for client in self.clients], among other tasks. The loop walks the
    set itself, not a copy: the iterator keeps the size the set had when
    the loop began ([used]) and its own position in the table, and [next]
    raises RuntimeError when the size is another. [todo] counts the
    clients still to visit. Each [await client.send(...)] lets the next
    element of [during] run, or nothing when [during] is used up. (A set
    changed at equal size is walked on by position; in Python the order
    then depends on the hash table.) *)
Fixpoint broadcast_iter (message_str : string) (used todo : nat)
    (during : list interference) (disconnected_clients : list client)
    (st : hub) : (hub * list client) * outcome unit :=
  if bool_decide (length (clients st.1) = used) then
    match todo, clients st.1 !! (used - todo)%nat with
    | S todo', Some c =>
        let '(net', r) := send c message_str st.2 in
        let st' := hd id during (st.1, net') in
        match r with
        | Return _ =>
            broadcast_iter message_str used todo' (tl during)
              disconnected_clients st'
        | Raise ConnectionClosed =>
            broadcast_iter message_str used todo' (tl during)
              (c :: disconnected_clients) st'
        | Raise e => ((st', disconnected_clients), Raise e)
        end
    | _, _ => ((st, disconnected_clients), Return tt)
    end
  else ((st, disconnected_clients), Raise set_changed_size).

Section Server.
Context `{Runtime}.

(** [async for message in websocket: await self.handle_message(...)], on
    the messages that arrive, each with the clock reading at its arrival. *)
Fixpoint serve (websocket : client) (incoming : list (Z * string)) (st : hub)
    : hub * outcome unit :=
  match incoming with
  | [] => (st, Return tt)
  | (now, message) :: rest =>
      match handle_message now websocket message st with
      | (st', Return _) => serve websocket rest st'
      | (st', Raise e) => (st', Raise e)
      end
  end.

(** ** SessionWebSocketServer.register_client

    [aborted] tells how the stream of messages ends: by a normal close, or
    by ConnectionClosed; that exception is passed over, any other goes on
    after the [finally] clause. *)
Definition register_client (websocket : client) (incoming : list (Z * string))
    (aborted : bool) (st : hub) : hub * handler_outcome :=
  let '(st', r) := serve websocket incoming (add_client websocket st) in
  let r :=
    match r with
    | Return _ => if aborted then Raise ConnectionClosed else Return tt
    | Raise e => Raise e
    end in
  remove_client websocket
    (match r with
     | Raise ConnectionClosed => Return tt
     | _ => r
     end) st'.

(** The event [cleanup_sessions] broadcasts. *)
Definition sessions_cleaned (now : Z) : pyval :=
  VDict [("type", VStr "sessions_cleaned");
         ("timestamp", VStr (isoformat now))].

(** One turn of the loop of [cleanup_sessions] in [start_server], once
    [asyncio.sleep(300)] is over: the sweep, with the default timeout of 30
    minutes, at the clock reading [now], then the broadcast, stamped with
    the reading [now'] and run without interruption. *)
Definition cleanup_sessions (now now' : Z) (st : hub) : hub * outcome unit :=
  match cleanup_inactive_sessions now 30 (session_manager st.1) with
  | (sm, Raise e) => ((with_manager st.1 sm, st.2), Raise e)
  | (sm, Return _) =>
      broadcast_update (sessions_cleaned now') (with_manager st.1 sm, st.2)
  end.

(** ** SessionWebSocketServer.broadcast_update, among other tasks: only
    ConnectionClosed is caught, and the clients found disconnected are
    taken out of the set once the loop is over. *)
Definition broadcast_update_during (during : list interference)
    (message : pyval) (st : hub) : hub * outcome unit :=
  match clients st.1 with
  | [] => (st, Return tt)
  | _ =>
      match dumps message with
      | Raise e => (st, Raise e)
      | Return message_str =>
          match broadcast_iter message_str (length (clients st.1))
                  (length (clients st.1)) during [] st with
          | ((st', _), Raise e) => (st', Raise e)
          | ((st', disconnected_clients), Return _) =>
              ((with_clients st'.1
                  (filter (λ c, c ∉ disconnected_clients) (clients st'.1)),
                st'.2),
               Return tt)
          end
      end
  end.
End Server.

(** ** Runs of the manager *)

Inductive op : Type :=
  | Register (now : Z) (session_id user_id : pyval)
  | Update (now : Z) (session_id : pyval) (kwargs : list (string * pyval))
  | Cleanup (now : Z) (timeout_minutes : Z).

Definition run_op `{Runtime} (o : op) (sm : SessionManager)
    : SessionManager :=
  match o with
  | Register now sid uid => (register_session now sid uid sm).1
  | Update now sid kwargs => (update_session now sid kwargs sm).1
  | Cleanup now timeout => (cleanup_inactive_sessions now timeout sm).1
  end.

Definition run_ops `{Runtime} (ops : list op) (sm : SessionManager)
    : SessionManager :=
  foldl (λ sm o, run_op o sm) sm ops.

(** The updates of the run name no inherited attribute. *)
Definition plain_op `{Runtime} (o : op) : Prop :=
  match o with
  | Update _ _ kwargs => plain kwargs
  | _ => True
  end.

(** What a handler serving [websocket] may do to the connections: it sends
    [frames] to that client, and leaves the set of clients and the other
    sockets as they are. *)
Definition replied (websocket : client) (frames : list string)
    (st st' : hub) : Prop :=
  clients st'.1 = clients st.1 ∧ closed st'.2 = closed st.2 ∧
  delivered st'.2
  = (delivered st.2 ++ ((λ frame, (websocket, frame)) <$> frames))%list.

(** The handler has sent [reply] to [websocket], done nothing else, and
    returned. *)
Definition answered `{Runtime} (websocket : client) (reply : pyval)
    (st : hub) : hub * outcome unit :=
  ((st.1,
    {| closed := closed st.2;
       delivered := delivered st.2 ++ [(websocket, json_dumps reply)] |}),
   Return tt).

(** A session all of whose fields [json.dumps] accepts. *)
Definition presentable (s : Session) : Prop :=
  serializable (session_id s) = true ∧ serializable (user_id s) = true ∧
  serializable (status s) = true ∧ serializable (current_task s) = true ∧
  serializable (progress s) = true ∧ serializable (resources_used s) = true.

(** * Verification *)

(** ** Dictionaries *)

Section DictFacts.
Context {K : Type} `{EqDecision K} {V : Type}.
Implicit Types (k : K) (v : V) (d : list (K * V)).

Lemma dict_get_set_eq k v d : dict_get k (dict_set k v d) = Some v.
Proof.
  induction d as [|[k' v'] d IH]; simpl.
  - by rewrite decide_True.
  - destruct (decide (k = k')) as [->|Hne]; simpl.
    + by rewrite decide_True.
    + by rewrite decide_False.
Qed.

Lemma dict_get_set_ne k k' v d :
  k ≠ k' → dict_get k (dict_set k' v d) = dict_get k d.
Proof.
  intros Hne. induction d as [|[k0 v0] d IH]; simpl.
  - by rewrite decide_False.
  - destruct (decide (k' = k0)) as [->|Hne0]; simpl.
    + by rewrite !decide_False.
    + destruct (decide (k = k0)); auto.
Qed.

Lemma dict_get_Some_elem k v d : dict_get k d = Some v → (k, v) ∈ d.
Proof.
  induction d as [|[k' v'] d IH]; simpl; [done|].
  destruct (decide (k = k')) as [->|Hne].
  - intros [= ->]. left.
  - intros Hd. right. auto.
Qed.

Lemma dict_get_None k d : dict_get k d = None ↔ k ∉ dict_keys d.
Proof.
  unfold dict_keys. induction d as [|[k' v'] d IH]; simpl.
  - split; [intros _; apply not_elem_of_nil | done].
  - rewrite not_elem_of_cons. destruct (decide (k = k')) as [->|Hne].
    + split; [done | intros [? _]; done].
    + rewrite IH. tauto.
Qed.

Lemma dict_get_elem k v d :
  NoDup (dict_keys d) → (k, v) ∈ d → dict_get k d = Some v.
Proof.
  unfold dict_keys. induction d as [|[k' v'] d IH]; simpl.
  - intros _ Hin. by apply elem_of_nil in Hin.
  - intros [Hk' Hnd]%NoDup_cons [Heq|Hin]%elem_of_cons.
    + injection Heq as -> ->. by rewrite decide_True.
    + destruct (decide (k = k')) as [->|Hne]; [|auto].
      exfalso. apply Hk'. apply list_elem_of_fmap. by exists (k', v).
Qed.

Lemma dict_get_del k k' d :
  dict_get k (dict_del k' d) = if decide (k = k') then None else dict_get k d.
Proof.
  unfold dict_del. induction d as [|[k0 v0] d IH]; simpl.
  - by destruct (decide (k = k')).
  - rewrite filter_cons. simpl.
    destruct (decide (k0 ≠ k')) as [Hne|Heq]; simpl; rewrite ?IH;
      repeat (case_decide; simplify_eq; try done).
Qed.

Lemma dict_get_del_all k d ids :
  dict_get k (foldl (λ d id, dict_del id d) d ids)
  = if decide (k ∈ ids) then None else dict_get k d.
Proof.
  revert d. induction ids as [|id ids IH]; intros d.
  - cbn [foldl]. destruct (decide (k ∈ [])) as [Hin|]; [|done].
    by apply elem_of_nil in Hin.
  - cbn [foldl]. rewrite IH, dict_get_del.
    destruct (decide (k = id)) as [->|Hne].
    + destruct (decide (id ∈ id :: ids)) as [|Hn];
        [by destruct (decide (id ∈ ids))|].
      exfalso. apply Hn. left.
    + destruct (decide (k ∈ ids)) as [Hin|Hnin];
        destruct (decide (k ∈ id :: ids)) as [Hin'|Hnin']; try done.
      * exfalso. apply Hnin'. by right.
      * exfalso. apply elem_of_cons in Hin' as [?|?]; done.
Qed.
End DictFacts.

(** ** Registration *)

Lemma register_session_fresh now sid uid k sm :
  dict_key sid = Some k → dict_get k (active_sessions sm) = None →
  ∃ sm', register_session now sid uid sm = (sm', Return true) ∧
    record_of sm' k
    = Some {| session_id := sid; user_id := uid;
              status := VStr "active";
              current_task := VStr "initializing";
              progress := VFloat 0;
              last_activity := VDatetime now;
              resources_used := VDict [] |}.
Proof.
  intros Hk Hfree. unfold register_session. rewrite Hk, Hfree.
  eexists. split; [reflexivity|].
  unfold record_of. simpl. rewrite dict_get_set_eq. simpl.
  by rewrite list_lookup_middle.
Qed.

Lemma register_session_taken now sid uid k sm :
  dict_key sid = Some k → is_Some (dict_get k (active_sessions sm)) →
  register_session now sid uid sm = (sm, Return false).
Proof.
  intros Hk [l Hl]. unfold register_session. by rewrite Hk, Hl.
Qed.

(** C1. For a hashable [session_id] with key [k]: when [k] is not in the
    registry, [register_session] returns True and the registry then holds,
    under [k], a record with the given ids, status 'active', task
    'initializing', progress 0.0, no resources and [last_activity = now];
    when [k] is registered, it returns False and the manager is unchanged,
    the record under [k] with it. *)
Theorem register_session_spec (now : Z) (sid uid : pyval) (k : key)
    (sm : SessionManager) :
  dict_key sid = Some k →
  (dict_get k (active_sessions sm) = None →
   ∃ sm', register_session now sid uid sm = (sm', Return true) ∧
     record_of sm' k
     = Some {| session_id := sid; user_id := uid;
               status := VStr "active";
               current_task := VStr "initializing";
               progress := VFloat 0;
               last_activity := VDatetime now;
               resources_used := VDict [] |}) ∧
  (is_Some (dict_get k (active_sessions sm)) →
   register_session now sid uid sm = (sm, Return false) ∧
   record_of (register_session now sid uid sm).1 k = record_of sm k).
Proof.
  intros Hk. split.
  - by apply register_session_fresh.
  - intros Htaken. by rewrite (register_session_taken _ _ _ _ _ Hk Htaken).
Qed.

Lemma register_session_witness :
  ∃ sm', register_session 1000 (VStr "s1") (VStr "u1") SessionManager_init
         = (sm', Return true) ∧
    (record_of sm' (KStr "s1") ≫= λ s, Some (user_id s)) = Some (VStr "u1") ∧
    register_session 2000 (VStr "s1") (VStr "u2") sm' = (sm', Return false).
Proof.
  destruct (register_session_spec 1000 (VStr "s1") (VStr "u1") (KStr "s1")
              SessionManager_init eq_refl) as [Hnew _].
  destruct (Hnew eq_refl) as (sm' & Hreg & Hrec).
  exists sm'. split; [exact Hreg|]. split; [by rewrite Hrec|].
  apply (register_session_spec 2000 (VStr "s1") (VStr "u2") (KStr "s1") sm'
           eq_refl).
  unfold record_of in Hrec.
  destruct (dict_get (KStr "s1") (active_sessions sm')); [eauto | done].
Defined.

(** ** Fields *)

Lemma get_set_field_eq f v s : get_field f (set_field f v s) = v.
Proof. by destruct f. Qed.

Lemma get_set_field_ne f f' v s :
  f ≠ f' → get_field f (set_field f' v s) = get_field f s.
Proof. by destruct f, f'. Qed.

Lemma field_of_name_inj a b f :
  field_of_name a = Some f → field_of_name b = Some f → a = b.
Proof.
  unfold field_of_name.
  repeat match goal with
         | |- context [String.eqb ?x ?y] => destruct (String.eqb_spec x y)
         end; intros; simplify_eq; done.
Qed.

Lemma apply_fields_other f kwargs s :
  (∀ name v, (name, v) ∈ kwargs → field_of_name name ≠ Some f) →
  get_field f (apply_fields kwargs s) = get_field f s.
Proof.
  unfold apply_fields. revert s.
  induction kwargs as [|[n0 v0] kwargs IH]; intros s Hnot; [done|].
  cbn [foldl]. rewrite IH.
  - simpl. destruct (field_of_name n0) as [f0|] eqn:Hf0; [|done].
    apply get_set_field_ne. intros ->. by apply (Hnot n0 v0); [left|].
  - intros name v Hin. apply (Hnot name v). by right.
Qed.

Lemma apply_fields_named f name v kwargs s :
  NoDup kwargs.*1 → (name, v) ∈ kwargs → field_of_name name = Some f →
  get_field f (apply_fields kwargs s) = v.
Proof.
  revert s. induction kwargs as [|[n0 v0] kwargs IH]; intros s Hnd Hin Hf.
  - by apply elem_of_nil in Hin.
  - apply NoDup_cons in Hnd as [Hn0 Hnd].
    apply elem_of_cons in Hin as [Heq|Hin].
    + injection Heq as <- <-. unfold apply_fields. cbn [foldl]. simpl.
      rewrite Hf. fold (apply_fields kwargs (set_field f v s)).
      rewrite apply_fields_other; [apply get_set_field_eq|].
      intros name' v' Hin' Hf'. apply Hn0.
      rewrite (field_of_name_inj _ _ _ Hf Hf').
      apply list_elem_of_fmap. by exists (name', v').
    + unfold apply_fields. cbn [foldl]. by apply IH.
Qed.

Section StoreFacts.
Context `{Runtime}.

Lemma update_attrs_plain kwargs s :
  plain kwargs → update_attrs kwargs s = (apply_fields kwargs s, Return tt).
Proof.
  unfold plain, apply_fields. revert s.
  induction kwargs as [|[name value] kwargs IH]; intros s Hplain; [done|].
  apply Forall_cons in Hplain as [Hname Hplain]. simpl in Hname.
  cbn [update_attrs foldl]. unfold hasattr, setattr. simpl.
  destruct (field_of_name name); [by apply IH|].
  rewrite Hname. by apply IH.
Qed.

Lemma binds_parameter_session_id kwargs name v :
  binds_parameter kwargs = false → (name, v) ∈ kwargs →
  field_of_name name ≠ Some Fsession_id.
Proof.
  unfold binds_parameter. intros Hb Hin Hf.
  assert (Hname : name = "session_id")
    by (apply (field_of_name_inj _ _ Fsession_id); done).
  subst name.
  assert (Hex : existsb
            (λ p : string * pyval,
               (p.1 =? "self")%string || (p.1 =? "session_id")%string)
            kwargs = true).
  { apply existsb_exists. exists ("session_id", v).
    split; [by apply list_elem_of_In|done]. }
  congruence.
Qed.
End StoreFacts.

(** ** Updates *)

(** C2, as the code has it. For a hashable [session_id] with key [k]:
    a mapping that names [self] or [session_id] makes the call fail with a
    TypeError and no effect; otherwise, when [k] is not registered, the call
    returns False and the manager is unchanged; and when [k] is registered
    and the mapping names no inherited attribute, the call returns True,
    every field the mapping names (other than [last_activity]) holds the
    given value, the names that are no field are passed over, the fields
    the mapping does not name are as before, and [last_activity] is the
    clock reading of the call. *)
Theorem update_session_spec `{Runtime} (now : Z) (sid : pyval) (k : key)
    (kwargs : list (string * pyval)) (sm : SessionManager) :
  dict_key sid = Some k →
  (binds_parameter kwargs = true →
   update_session now sid kwargs sm = (sm, Raise multiple_values)) ∧
  (binds_parameter kwargs = false →
   dict_get k (active_sessions sm) = None →
   update_session now sid kwargs sm = (sm, Return false)) ∧
  (binds_parameter kwargs = false → plain kwargs → NoDup kwargs.*1 →
   ∀ s, record_of sm k = Some s →
   ∃ sm' s', update_session now sid kwargs sm = (sm', Return true) ∧
     active_sessions sm' = active_sessions sm ∧
     record_of sm' k = Some s' ∧
     last_activity s' = VDatetime now ∧
     (∀ name v f, (name, v) ∈ kwargs → field_of_name name = Some f →
        f ≠ Flast_activity → get_field f s' = v) ∧
     (∀ f, f ≠ Flast_activity →
        (∀ name v, (name, v) ∈ kwargs → field_of_name name ≠ Some f) →
        get_field f s' = get_field f s)).
Proof.
  intros Hk. unfold update_session. repeat split.
  - by intros ->.
  - intros -> Hnone. by rewrite Hk, Hnone.
  - intros -> Hplain Hnd s Hrec. rewrite Hk. unfold record_of in *.
    destruct (dict_get k (active_sessions sm)) as [l|] eqn:Hl; [|done].
    simpl in Hrec. rewrite Hrec, (update_attrs_plain _ _ Hplain).
    eexists _, (set_field Flast_activity (VDatetime now)
                  (apply_fields kwargs s)).
    split; [reflexivity|]. cbn [active_sessions objects]. rewrite Hl.
    split; [done|]. split.
    { apply list_lookup_insert_eq. by eapply lookup_lt_Some. }
    split; [done|]. split.
    + intros name v f Hin Hf Hne. rewrite get_set_field_ne by done.
      by eapply apply_fields_named.
    + intros f Hne Hnot. rewrite get_set_field_ne by done.
      by apply apply_fields_other.
Qed.

Lemma update_session_witness :
  ∃ sm' s',
    update_session 2000 (VStr "s1")
      [("progress", VFloat (1 # 2)); ("colour", VStr "red")]
      Example.one_session
    = (sm', Return true) ∧
    record_of sm' (KStr "s1") = Some s' ∧
    progress s' = VFloat (1 # 2) ∧ user_id s' = VStr "u1" ∧
    last_activity s' = VDatetime 2000.
Proof.
  destruct (update_session_spec 2000 (VStr "s1") (KStr "s1")
              [("progress", VFloat (1 # 2)); ("colour", VStr "red")]
              Example.one_session eq_refl) as (_ & _ & Hreg).
  destruct (Hreg eq_refl) with
    (s := mkSession (VStr "s1") (VStr "u1") (VStr "active")
            (VStr "initializing") (VFloat 0) (VDatetime 1000) (VDict []))
    as (sm' & s' & Hupd & _ & Hrec & Hlast & Hnamed & Hother).
  - repeat constructor.
  - apply NoDup_ListNoDup. repeat constructor; simpl; intuition discriminate.
  - reflexivity.
  - exists sm', s'. repeat split; try done.
    + apply (Hnamed "progress" (VFloat (1 # 2)) Fprogress);
        [left | done | done].
    + apply (Hother Fuser_id); [done|].
      intros name v Hin.
      apply elem_of_cons in Hin as [[= -> ->]|Hin]; [done|].
      apply elem_of_cons in Hin as [[= -> ->]|Hin]; [done|].
      by apply elem_of_nil in Hin.
Defined.

(** C2 does not hold as the specification words it. An update made while
    the clock still reads what it read at registration returns True and
    leaves [last_activity] where it was, not strictly later; and a mapping
    that names the field [session_id] is answered with a TypeError, not
    with True. *)
Lemma update_session_counterexample :
  ((update_session 1000 (VStr "s1") [("progress", VFloat (1 # 2))]
      Example.one_session).2 = Return true ∧
   ¬ ∃ t t',
       last_activity <$> record_of Example.one_session (KStr "s1")
       = Some (VDatetime t) ∧
       last_activity <$>
         record_of
           (update_session 1000 (VStr "s1") [("progress", VFloat (1 # 2))]
              Example.one_session).1 (KStr "s1")
       = Some (VDatetime t') ∧
       t < t') ∧
  (update_session 2000 (VStr "s1") [("session_id", VStr "s2")]
     Example.one_session).2
  = Raise multiple_values.
Proof.
  repeat split. intros (t & t' & [= <-] & [= <-] & Hlt). lia.
Qed.

(** ** The idle sweep *)

(** *** Rounding to binary64

    The rounding never crosses a float: what lies on one side of a float
    [m * 2^-i], with [|m| < 2^53], is rounded to that side. *)

Lemma round_half_even_floor (x : Q) :
  Qfloor x <= round_half_even x <= Qfloor x + 1.
Proof.
  unfold round_half_even.
  destruct (x - inject_Z (Qfloor x) ?= 1 # 2)%Q; [destruct (Z.even _)| |]; lia.
Qed.

Lemma round_half_even_le (x : Q) (z : Z) :
  (x <= inject_Z z)%Q -> round_half_even x <= z.
Proof.
  intros Hx. pose proof (Qfloor_le x) as Hf.
  assert (Hfz : Qfloor x <= z).
  { rewrite Zle_Qle. lra. }
  destruct (Z.eq_dec (Qfloor x) z) as [Heq|Hne].
  - (* x is the integer z *)
    assert (Hxz : (x == inject_Z z)%Q) by (rewrite <- Heq in Hx |- *; lra).
    unfold round_half_even.
    assert (Hlt : (x - inject_Z (Qfloor x) ?= 1 # 2)%Q = Lt).
    { rewrite <- Qlt_alt. rewrite Heq. lra. }
    rewrite Hlt. lia.
  - pose proof (round_half_even_floor x). lia.
Qed.

Lemma round_half_even_ge (x : Q) (z : Z) :
  (inject_Z z <= x)%Q -> z <= round_half_even x.
Proof.
  intros Hx. pose proof (Qlt_floor x) as Hf.
  assert (Hfz : z < Qfloor x + 1).
  { rewrite Zlt_Qlt. lra. }
  pose proof (round_half_even_floor x). lia.
Qed.

Lemma Qpower2_pos (k : Z) : (0 < 2 ^ k)%Q.
Proof. apply Qpower_0_lt. reflexivity. Qed.


Lemma Qpower2_int (k : Z) : 0 <= k -> (2 ^ k == inject_Z (2 ^ k))%Q.
Proof. intros Hk. symmetry. apply (Zpower_Qpower 2 k Hk). Qed.

Lemma Qpower2_add (a b : Z) : (2 ^ (a + b) == 2 ^ a * 2 ^ b)%Q.
Proof. apply Qpower_plus. discriminate. Qed.

Lemma Qpower2_opp (a : Z) : (2 ^ a * 2 ^ (- a) == 1)%Q.
Proof.
  rewrite <- Qpower2_add. replace (a + - a) with 0 by lia. reflexivity.
Qed.

Lemma ilog2_le (x : Q) : ~ (x == 0)%Q -> (2 ^ ilog2 x <= Qabs x)%Q.
Proof.
  intros Hx. unfold ilog2.
  set (a := Z.log2 (Z.abs (Qnum x))). set (b := Z.log2 (Z.pos (Qden x))).
  destruct (Qle_bool (2 ^ (a - b)) (Qabs x)) eqn:Hle.
  - apply Qle_bool_iff; assumption.
  - assert (Hn : 0 < Z.abs (Qnum x)).
    { destruct x as [n d]. unfold Qeq in Hx. simpl in *. lia. }
    pose proof (Z.log2_spec _ Hn) as [Ha _]. fold a in Ha.
    assert (Hd : 0 < Z.pos (Qden x)) by lia.
    pose proof (Z.log2_spec _ Hd) as [_ Hb]. fold b in Hb.
    pose proof (Z.log2_nonneg (Z.abs (Qnum x))) as Ha0. fold a in Ha0.
    pose proof (Z.log2_nonneg (Z.pos (Qden x))) as Hb0. fold b in Hb0.
    replace (a - b - 1) with (a + - (b + 1)) by lia.
    rewrite Qpower2_add.
    apply (Qmult_le_r _ _ (2 ^ (b + 1))); [apply Qpower2_pos|].
    rewrite <- Qmult_assoc, (Qmult_comm (2 ^ (- (b + 1)))), Qpower2_opp.
    rewrite Qmult_1_r, !Qpower2_int by lia.
    destruct x as [n d]. unfold Qabs, Qle, Qmult, inject_Z in *. simpl in *.
    rewrite <- Z.add_1_r in Hb. nia.
Qed.

(** The scaled value has 53 bits before the point, or more. *)
Lemma scaled_ge (x : Q) :
  ~ (x == 0)%Q -> (2 ^ 52 <= Qabs (x * 2 ^ (52 - ilog2 x)))%Q.
Proof.
  intros Hx. rewrite Qabs_Qmult.
  rewrite (Qabs_pos (2 ^ _)) by (apply Qlt_le_weak, Qpower2_pos).
  pose proof (ilog2_le x Hx) as Hl.
  replace 52 with ((52 - ilog2 x) + ilog2 x) at 1 by lia.
  rewrite Qpower2_add, Qmult_comm.
  apply Qmult_le_compat_r; [assumption|]. apply Qlt_le_weak, Qpower2_pos.
Qed.

Lemma scaled_repr (m i k : Z) (y : Q) :
  (y == inject_Z m * 2 ^ (- i))%Q ->
  (y * 2 ^ k == inject_Z m * 2 ^ (k - i))%Q.
Proof.
  intros ->. replace (k - i) with (- i + k) by lia.
  rewrite Qpower2_add. ring.
Qed.

Lemma small_repr (m j : Z) :
  Z.abs m < 2 ^ 53 -> j < 0 ->
  (- (4503599627370496) < inject_Z m * 2 ^ j < 4503599627370496)%Q.
Proof.
  intros Hm Hj.
  pose proof (Qpower2_pos j) as Hpos.
  assert (Hhalf : (2 ^ j <= 1 # 2)%Q).
  { change (1 # 2)%Q with (2 ^ (-1))%Q.
    apply Qpower_le_compat_l; [lia|discriminate]. }
  assert (Hlo : (- (9007199254740992) < inject_Z m)%Q).
  { change (- (9007199254740992))%Q with (inject_Z (- 2 ^ 53)).
    rewrite <- Zlt_Qlt. lia. }
  assert (Hhi : (inject_Z m < 9007199254740992)%Q).
  { change (9007199254740992)%Q with (inject_Z (2 ^ 53)).
    rewrite <- Zlt_Qlt. lia. }
  split; nra.
Qed.

Lemma binary64_le (x y : Q) (m i : Z) :
  Z.abs m < 2 ^ 53 -> (y == inject_Z m * 2 ^ (- i))%Q ->
  (x <= y)%Q -> (binary64 x <= y)%Q.
Proof.
  intros Hm Hy Hxy. unfold binary64.
  destruct (Qeq_bool x 0) eqn:Hx0.
  - apply Qeq_bool_iff in Hx0. lra.
  - assert (Hx : ~ (x == 0)%Q) by (intros Heq%Qeq_bool_iff; congruence).
    cbv zeta. set (k := 52 - ilog2 x).
    pose proof (scaled_ge x Hx) as Hbig. fold k in Hbig.
    pose proof (scaled_repr m i k y Hy) as HY.
    pose proof (Qpower2_pos k) as Hk.
    assert (HXY : (x * 2 ^ k <= y * 2 ^ k)%Q) by nra.
    assert (Hgoal : (inject_Z (round_half_even (x * 2 ^ k)) <= y * 2 ^ k)%Q).
    { destruct (Z_lt_le_dec (k - i) 0) as [Hneg|Hnn].
      - pose proof (small_repr m (k - i) Hm Hneg) as [Hlo Hhi].
        rewrite <- HY in Hlo, Hhi.
        assert (Hp : (2 ^ 52 == 4503599627370496)%Q) by reflexivity.
        rewrite Hp in Hbig.
        assert (HX : (x * 2 ^ k <= inject_Z (- 4503599627370496))%Q).
        { change (inject_Z (- 4503599627370496)) with (- (4503599627370496))%Q.
          destruct (Qlt_le_dec (x * 2 ^ k) 0) as [Hn|Hp0].
          - rewrite Qabs_neg in Hbig by lra. lra.
          - rewrite Qabs_pos in Hbig by lra. lra. }
        apply round_half_even_le in HX. rewrite Zle_Qle in HX.
        change (inject_Z (- 4503599627370496))
          with (- (4503599627370496))%Q in HX. lra.
      - assert (HYz : (y * 2 ^ k == inject_Z (m * 2 ^ (k - i)))%Q).
        { rewrite HY, inject_Z_mult.
          apply Qmult_comp; [reflexivity|]. apply Qpower2_int; assumption. }
        assert (Hz : round_half_even (x * 2 ^ k) <= m * 2 ^ (k - i)).
        { apply round_half_even_le. lra. }
        rewrite Zle_Qle in Hz. lra. }
    apply (Qmult_le_r _ _ (2 ^ k)); [exact Hk|].
    rewrite <- Qmult_assoc, (Qmult_comm (2 ^ (- k))), Qpower2_opp. lra.
Qed.

Lemma binary64_ge (x y : Q) (m i : Z) :
  Z.abs m < 2 ^ 53 -> (y == inject_Z m * 2 ^ (- i))%Q ->
  (y <= x)%Q -> (y <= binary64 x)%Q.
Proof.
  intros Hm Hy Hxy. unfold binary64.
  destruct (Qeq_bool x 0) eqn:Hx0.
  - apply Qeq_bool_iff in Hx0. lra.
  - assert (Hx : ~ (x == 0)%Q) by (intros Heq%Qeq_bool_iff; congruence).
    cbv zeta. set (k := 52 - ilog2 x).
    pose proof (scaled_ge x Hx) as Hbig. fold k in Hbig.
    pose proof (scaled_repr m i k y Hy) as HY.
    pose proof (Qpower2_pos k) as Hk.
    assert (HXY : (y * 2 ^ k <= x * 2 ^ k)%Q) by nra.
    assert (Hgoal : (y * 2 ^ k <= inject_Z (round_half_even (x * 2 ^ k)))%Q).
    { destruct (Z_lt_le_dec (k - i) 0) as [Hneg|Hnn].
      - pose proof (small_repr m (k - i) Hm Hneg) as [Hlo Hhi].
        rewrite <- HY in Hlo, Hhi.
        assert (Hp : (2 ^ 52 == 4503599627370496)%Q) by reflexivity.
        rewrite Hp in Hbig.
        assert (HX : (inject_Z 4503599627370496 <= x * 2 ^ k)%Q).
        { change (inject_Z 4503599627370496) with (4503599627370496)%Q.
          destruct (Qlt_le_dec (x * 2 ^ k) 0) as [Hn|Hp0].
          - rewrite Qabs_neg in Hbig by lra. lra.
          - rewrite Qabs_pos in Hbig by lra. lra. }
        apply round_half_even_ge in HX. rewrite Zle_Qle in HX.
        change (inject_Z 4503599627370496) with (4503599627370496)%Q in HX.
        lra.
      - assert (HYz : (y * 2 ^ k == inject_Z (m * 2 ^ (k - i)))%Q).
        { rewrite HY, inject_Z_mult.
          apply Qmult_comp; [reflexivity|]. apply Qpower2_int; assumption. }
        assert (Hz : m * 2 ^ (k - i) <= round_half_even (x * 2 ^ k)).
        { apply round_half_even_ge. lra. }
        rewrite Zle_Qle in Hz. lra. }
    apply (Qmult_le_r _ _ (2 ^ k)); [exact Hk|].
    rewrite <- (Qmult_assoc (inject_Z _)), (Qmult_comm (2 ^ (- k))), Qpower2_opp.
    lra.
Qed.

(** A float is its own rounding. *)
Lemma binary64_repr (y : Q) (m i : Z) :
  Z.abs m < 2 ^ 53 -> (y == inject_Z m * 2 ^ (- i))%Q -> (binary64 y == y)%Q.
Proof.
  intros Hm Hy. apply Qle_antisym.
  - apply (binary64_le y y m i); [assumption..|lra].
  - apply (binary64_ge y y m i); [assumption..|lra].
Qed.

Lemma binary64_le_int (x : Q) (z : Z) :
  Z.abs z < 2 ^ 53 -> (x <= inject_Z z)%Q -> (binary64 x <= inject_Z z)%Q.
Proof.
  intros Hz. apply (binary64_le x (inject_Z z) z 0 Hz).
  change (2 ^ (- 0))%Q with 1%Q. ring.
Qed.

Lemma binary64_ge_int (x : Q) (z : Z) :
  Z.abs z < 2 ^ 53 -> (inject_Z z <= x)%Q -> (inject_Z z <= binary64 x)%Q.
Proof.
  intros Hz. apply (binary64_ge x (inject_Z z) z 0 Hz).
  change (2 ^ (- 0))%Q with 1%Q. ring.
Qed.

Lemma micro_le (us z : Z) :
  us <= 1000000 * z <-> (us # 1000000 <= inject_Z z)%Q.
Proof. unfold Qle, inject_Z. cbn [Qnum Qden]. lia. Qed.

Lemma micro_ge (us z : Z) :
  1000000 * z <= us <-> (inject_Z z <= us # 1000000)%Q.
Proof. unfold Qle, inject_Z. cbn [Qnum Qden]. lia. Qed.

Lemma minutes_le (us T : Z) :
  Z.abs (60 * T) < 2 ^ 53 -> us <= 60000000 * T ->
  (binary64 (total_seconds us / 60) <= inject_Z T)%Q.
Proof.
  intros HT Hus.
  assert (Hs : (total_seconds us <= inject_Z (60 * T))%Q).
  { apply binary64_le_int; [assumption|]. apply micro_le. lia. }
  apply binary64_le_int; [lia|].
  rewrite inject_Z_mult in Hs. change (inject_Z 60) with 60%Q in Hs.
  apply Qle_shift_div_r; [reflexivity|]. lra.
Qed.

Lemma minutes_ge (us T : Z) :
  Z.abs (60 * T) < 2 ^ 53 -> 60000000 * T <= us ->
  (inject_Z T <= binary64 (total_seconds us / 60))%Q.
Proof.
  intros HT Hus.
  assert (Hs : (inject_Z (60 * T) <= total_seconds us)%Q).
  { apply binary64_ge_int; [assumption|]. apply micro_ge. lia. }
  apply binary64_ge_int; [lia|].
  rewrite inject_Z_mult in Hs. change (inject_Z 60) with 60%Q in Hs.
  apply Qle_shift_div_l; [reflexivity|]. lra.
Qed.

(** Below 2^27 minutes one microsecond more than the timeout is seen. *)
Lemma minutes_gt (us T : Z) :
  Z.abs T < 2 ^ 27 -> 60000000 * T < us ->
  (inject_Z T < binary64 (total_seconds us / 60))%Q.
Proof.
  intros HT Hus.
  set (y := (inject_Z (60 * T * 2 ^ 20 + 1) * 2 ^ (- (20)))%Q).
  assert (Hy : (y <= total_seconds us)%Q).
  { apply (binary64_ge _ y (60 * T * 2 ^ 20 + 1) 20); [lia|reflexivity|].
    unfold y. change (2 ^ (- (20)))%Q with (1 # 1048576)%Q.
    unfold Qle, Qmult, inject_Z. cbn [Qnum Qden]. lia. }
  set (z := (inject_Z (T * 2 ^ 26 + 1) * 2 ^ (- (26)))%Q).
  assert (Hz : (z <= binary64 (total_seconds us / 60))%Q).
  { apply (binary64_ge _ z (T * 2 ^ 26 + 1) 26); [lia|reflexivity|].
    apply Qle_shift_div_l; [reflexivity|].
    apply (Qle_trans _ y); [|exact Hy].
    unfold y, z. change (2 ^ (- (20)))%Q with (1 # 1048576)%Q.
    change (2 ^ (- (26)))%Q with (1 # 67108864)%Q.
    unfold Qle, Qmult, inject_Z. cbn [Qnum Qden]. lia. }
  apply (Qlt_le_trans _ z); [|exact Hz].
  unfold z. change (2 ^ (- (26)))%Q with (1 # 67108864)%Q.
  unfold Qlt, Qmult, inject_Z. cbn [Qnum Qden]. lia.
Qed.

Lemma exact_minutes_lt (us T : Z) :
  (inject_Z T < (us # 1000000) / 60)%Q <-> T * 60000000 < us.
Proof. unfold Qlt, Qdiv, Qmult, Qinv, inject_Z. cbn [Qnum Qden]. lia. Qed.

(** A session within the timeout is never taken for an idle one. *)
Lemma time_diff_fresh (timeout_minutes current_time t : Z) :
  current_time - t <= timeout_minutes * 60000000 ->
  ~ (inject_Z timeout_minutes < time_diff current_time t)%Q.
Proof.
  intros Hus. unfold time_diff. cbv zeta.
  destruct (Z.ltb_spec (Z.abs (current_time - t)) datetime_span) as [Hin|Hout].
  - unfold datetime_span in Hin. apply Qle_not_lt.
    destruct (Z_le_gt_dec 5258964960 timeout_minutes) as [Hbig|Hsmall].
    + apply (Qle_trans _ (inject_Z 5258964960)); [|rewrite <- Zle_Qle; assumption].
      apply minutes_le; lia.
    + apply minutes_le; lia.
  - rewrite exact_minutes_lt. lia.
Qed.

(** A session over the timeout by a minute is always idle. *)
Lemma time_diff_minute (timeout_minutes current_time t : Z) :
  (timeout_minutes + 1) * 60000000 <= current_time - t ->
  (inject_Z timeout_minutes < time_diff current_time t)%Q.
Proof.
  intros Hus. unfold time_diff. cbv zeta.
  destruct (Z.ltb_spec (Z.abs (current_time - t)) datetime_span) as [Hin|Hout].
  - unfold datetime_span in Hin.
    destruct (Z_le_gt_dec (timeout_minutes + 1) (- 5258964960)) as [Hbig|Hsmall].
    + apply (Qlt_le_trans _ (inject_Z (- 5258964960)));
        [rewrite <- Zlt_Qlt; lia|].
      apply minutes_ge; lia.
    + apply (Qlt_le_trans _ (inject_Z (timeout_minutes + 1)));
        [rewrite <- Zlt_Qlt; lia|].
      apply minutes_ge; lia.
  - rewrite exact_minutes_lt. lia.
Qed.

(** Under 2^27 minutes, every session over the timeout is idle. *)
Lemma time_diff_idle (timeout_minutes current_time t : Z) :
  Z.abs timeout_minutes < 2 ^ 27 ->
  timeout_minutes * 60000000 < current_time - t ->
  (inject_Z timeout_minutes < time_diff current_time t)%Q.
Proof.
  intros HT Hus. unfold time_diff. cbv zeta.
  destruct (Z.ltb_spec (Z.abs (current_time - t)) datetime_span) as [Hin|Hout].
  - apply minutes_gt; lia.
  - rewrite exact_minutes_lt. lia.
Qed.

Lemma inactive_sessions_spec objs now timeout items :
  (∀ k l, (k, l) ∈ items →
     ∃ s t, objs !! l = Some s ∧ last_activity s = VDatetime t) →
  ∃ ids, inactive_sessions objs now timeout items = Return ids ∧
    ∀ k, k ∈ ids ↔
      ∃ l s t, (k, l) ∈ items ∧ objs !! l = Some s ∧
        last_activity s = VDatetime t ∧
        (inject_Z timeout < time_diff now t)%Q.
Proof.
  induction items as [|[k0 l0] items IH]; intros Hwf.
  - exists []. split; [done|]. intros k. split.
    + by intros ?%elem_of_nil.
    + by intros (? & ? & ? & ?%elem_of_nil & _).
  - destruct IH as (ids & Hids & Hin).
    { intros k l Hkl. apply (Hwf k l). by right. }
    destruct (Hwf k0 l0) as (s0 & t0 & Hs0 & Ht0); [left|].
    cbn [inactive_sessions]. rewrite Hs0, Ht0, Hids.
    destruct (Qlt_le_dec (inject_Z timeout) (time_diff now t0)) as [Hlt|Hle].
    + exists (k0 :: ids). split; [done|].
      intros k. rewrite elem_of_cons, (Hin k). split.
      * intros [->|(l & s & t & Hkl & ?)].
        -- exists l0, s0, t0. split; [left|done].
        -- exists l, s, t. split; [by right|done].
      * intros (l & s & t & [[= -> ->]|Hkl]%elem_of_cons & ?); [by left|].
        right. by exists l, s, t.
    + exists ids. split; [done|]. intros k. rewrite (Hin k). split.
      * intros (l & s & t & Hkl & ?). exists l, s, t. split; [by right|done].
      * intros (l & s & t & [[= -> ->]|Hkl]%elem_of_cons & Hs & Ht & Hidle).
        -- exfalso. rewrite Hs0 in Hs. injection Hs as <-.
           rewrite Ht0 in Ht. injection Ht as <-.
           by apply Qle_not_lt in Hle.
        -- by exists l, s, t.
Qed.

(** What a sweep of a well-formed registry does: the sessions that the
    comparison [time_diff > timeout_minutes] takes for idle go, the others
    stay as they are. *)
Lemma cleanup_inactive_sessions_run (now timeout_minutes : Z)
    (sm : SessionManager) :
  well_formed sm →
  ∃ sm', cleanup_inactive_sessions now timeout_minutes sm
         = (sm', Return VNone) ∧
    objects sm' = objects sm ∧
    (∀ k s t, record_of sm k = Some s → last_activity s = VDatetime t →
       (inject_Z timeout_minutes < time_diff now t)%Q →
       record_of sm' k = None) ∧
    (∀ k s t, record_of sm k = Some s → last_activity s = VDatetime t →
       ¬ (inject_Z timeout_minutes < time_diff now t)%Q →
       record_of sm' k = Some s) ∧
    (∀ k, record_of sm k = None → record_of sm' k = None).
Proof.
  intros [Hnd Hwf].
  destruct (inactive_sessions_spec (objects sm) now timeout_minutes
              (active_sessions sm) Hwf) as (ids & Hids & Hin).
  unfold cleanup_inactive_sessions. rewrite Hids.
  eexists. split; [reflexivity|]. split; [done|].
  unfold record_of. cbn [objects active_sessions].
  repeat split.
  - intros k s t Hrec Ht Hidle. rewrite dict_get_del_all.
    destruct (decide (k ∈ ids)) as [|Hnin]; [done|].
    exfalso. apply Hnin, Hin.
    destruct (dict_get k (active_sessions sm)) as [l|] eqn:Hl; [|done].
    exists l, s, t. split; [by apply dict_get_Some_elem|done].
  - intros k s t Hrec Ht Hfresh. rewrite dict_get_del_all.
    destruct (decide (k ∈ ids)) as [Hk|]; [|done].
    exfalso. apply Hin in Hk as (l & s' & t' & Hkl & Hs' & Ht' & Hidle).
    rewrite (dict_get_elem _ _ _ Hnd Hkl) in Hrec. simpl in Hrec.
    rewrite Hs' in Hrec. injection Hrec as ->.
    rewrite Ht' in Ht. injection Ht as ->. done.
  - intros k Hrec. rewrite dict_get_del_all.
    by destruct (decide (k ∈ ids)).
Qed.

Lemma inactive_sessions_blocked objs now timeout items k l s :
  (∀ k' l', (k', l') ∈ items → is_Some (objs !! l')) →
  (k, l) ∈ items → objs !! l = Some s →
  (∀ t, last_activity s ≠ VDatetime t) →
  inactive_sessions objs now timeout items = Raise unsupported_operand.
Proof.
  intros Hrefs Hin Hs Hbad.
  induction items as [|[k0 l0] items IH]; [by apply elem_of_nil in Hin|].
  cbn [inactive_sessions].
  destruct (Hrefs k0 l0) as [s0 Hs0]; [left|]. rewrite Hs0.
  destruct (last_activity s0) as [| | | | | | |t0] eqn:Ht0; try done.
  rewrite IH; [done| |].
  - intros k' l' Hin'. apply (Hrefs k' l'). by right.
  - apply elem_of_cons in Hin as [[= -> ->]|Hin]; [|done].
    exfalso. apply (Hbad t0). congruence.
Qed.

Lemma one_session_well_formed : well_formed Example.one_session.
Proof.
  split.
  - apply NoDup_singleton.
  - intros k l [[= -> ->]|Hin%elem_of_nil]%elem_of_cons; [|done].
    by eexists _, _.
Qed.

(** C3, as the code has it. The age of a session is a float, the minutes
    [(now - last_activity).total_seconds() / 60] ([time_diff]). When every
    [last_activity] is a datetime, [cleanup_inactive_sessions] removes the
    sessions whose age, as that float, is more than [timeout_minutes], and
    no other. So a session whose age is the timeout or less stays, at the
    boundary too; a session whose age is more than the timeout goes when
    the timeout is under 2^27 minutes, and whatever the timeout when its
    age is a minute or more over it (in between, the excess can be lost in
    the rounding); the sessions that stay are as they were; and the call
    returns None, not the ids it removed. When some [last_activity] is no
    datetime, the sweep raises TypeError and removes nothing. *)
Theorem cleanup_inactive_sessions_spec (now timeout_minutes : Z)
    (sm : SessionManager) :
  (well_formed sm →
   ∃ sm', cleanup_inactive_sessions now timeout_minutes sm
          = (sm', Return VNone) ∧
     objects sm' = objects sm ∧
     (∀ k s t, record_of sm k = Some s → last_activity s = VDatetime t →
        ((inject_Z timeout_minutes < time_diff now t)%Q →
         record_of sm' k = None) ∧
        (¬ (inject_Z timeout_minutes < time_diff now t)%Q →
         record_of sm' k = Some s) ∧
        ((now - t ≤ timeout_minutes * 60000000)%Z →
         record_of sm' k = Some s) ∧
        (timeout_minutes * 60000000 < now - t →
         Z.abs timeout_minutes < 2 ^ 27 → record_of sm' k = None) ∧
        (((timeout_minutes + 1) * 60000000 ≤ now - t)%Z →
         record_of sm' k = None)) ∧
     (∀ k, record_of sm k = None → record_of sm' k = None)) ∧
  (∀ k l s,
     (∀ k' l', (k', l') ∈ active_sessions sm → is_Some (objects sm !! l')) →
     (k, l) ∈ active_sessions sm → objects sm !! l = Some s →
     (∀ t, last_activity s ≠ VDatetime t) →
     cleanup_inactive_sessions now timeout_minutes sm
     = (sm, Raise unsupported_operand)).
Proof.
  split.
  - intros Hsm.
    destruct (cleanup_inactive_sessions_run now timeout_minutes sm Hsm)
      as (sm' & Hrun & Hobjs & Hidle & Hfresh & Hnone).
    exists sm'. split; [done|]. split; [done|]. split; [|done].
    intros k s t Hrec Ht.
    split; [by apply (Hidle k s t)|]. split; [by apply (Hfresh k s t)|].
    split; [|split].
    + intros Hage. apply (Hfresh k s t); [done..|].
      by apply time_diff_fresh.
    + intros Hage Hsmall. apply (Hidle k s t); [done..|].
      by apply time_diff_idle.
    + intros Hage. apply (Hidle k s t); [done..|].
      by apply time_diff_minute.
  - intros k l s Hrefs Hin Hs Hbad. unfold cleanup_inactive_sessions.
    by rewrite (inactive_sessions_blocked _ _ _ _ k l s).
Qed.

Lemma cleanup_inactive_sessions_witness :
  (∃ sm', cleanup_inactive_sessions 1860001000 30 Example.one_session
          = (sm', Return VNone) ∧
     record_of sm' (KStr "s1") = None) ∧
  (∃ sm', cleanup_inactive_sessions 1800001000 30 Example.one_session
          = (sm', Return VNone) ∧
     record_of sm' (KStr "s1") = record_of Example.one_session (KStr "s1")).
Proof.
  split.
  - destruct (cleanup_inactive_sessions_spec 1860001000 30
                Example.one_session) as [Hsweep _].
    destruct (Hsweep one_session_well_formed)
      as (sm' & Hrun & _ & Hrec & _).
    exists sm'. split; [exact Hrun|].
    destruct (Hrec (KStr "s1") Example.s1 1000 eq_refl eq_refl)
      as (_ & _ & _ & Hidle & _).
    apply Hidle; [reflexivity|]. vm_compute. reflexivity.
  - destruct (cleanup_inactive_sessions_spec 1800001000 30
                Example.one_session) as [Hsweep _].
    destruct (Hsweep one_session_well_formed)
      as (sm' & Hrun & _ & Hrec & _).
    exists sm'. split; [exact Hrun|].
    destruct (Hrec (KStr "s1") Example.s1 1000 eq_refl eq_refl)
      as (_ & _ & Hfresh & _).
    apply Hfresh. vm_compute. discriminate.
Defined.

(** C3 does not hold as the specification words it. The sweep that removes
    "s1" returns None, which is not the sequence of the ids it removed.
    With a timeout of 300000000 minutes, the session "s1", whose age is
    one microsecond more, stays: the seconds of the age, 18000000000 and a
    millionth, are rounded to 18000000000. And once an update that failed
    half-way has left the number 5 as the [last_activity] of "s1", the
    sweep raises TypeError, and "s2", idle for 150 minutes, stays. *)
Lemma cleanup_inactive_sessions_counterexample :
  (record_of
     (cleanup_inactive_sessions 1860001000 30 Example.one_session).1
     (KStr "s1") = None ∧
   (cleanup_inactive_sessions 1860001000 30 Example.one_session).2
   = Return VNone ∧
   (cleanup_inactive_sessions 1860001000 30 Example.one_session).2
   ≠ Return (VList [VStr "s1"])) ∧
  (record_of Example.one_session (KStr "s1") = Some Example.s1 ∧
   last_activity Example.s1 = VDatetime 1000 ∧
   300000000 * 60000000 < 18000000000001001 - 1000 ∧
   record_of
     (cleanup_inactive_sessions 18000000000001001 300000000
        Example.one_session).1 (KStr "s1")
   = Some Example.s1) ∧
  (let sm :=
     (update_session 2000 (VStr "s1")
        [("last_activity", VInt 5); ("__class__", VInt 1)]
        (register_session 1000 (VStr "s2") (VStr "u2")
           Example.one_session).1).1 in
   (last_activity <$> record_of sm (KStr "s2")) = Some (VDatetime 1000) ∧
   30 * 60000000 < 9000001000 - 1000 ∧
   cleanup_inactive_sessions 9000001000 30 sm
   = (sm, Raise unsupported_operand) ∧
   is_Some (record_of sm (KStr "s2"))).
Proof.
  split; [|split].
  - split; [by vm_compute|]. split; [by vm_compute|]. vm_compute. discriminate.
  - split; [done|]. split; [done|]. split; [done|]. by vm_compute.
  - cbv zeta. split; [by vm_compute|]. split; [done|].
    split; [by vm_compute|]. by eexists.
Qed.

(** ** What a returned list of sessions shows *)

Lemma snapshot_records_ext sm sm' sessions :
  (∀ l, l ∈ sessions → objects sm' !! l = objects sm !! l) →
  snapshot_records sm' sessions = snapshot_records sm sessions.
Proof.
  intros Hsame. unfold snapshot_records.
  induction sessions as [|l sessions IH]; [done|].
  rewrite !fmap_cons. f_equal.
  - apply Hsame. left.
  - apply IH. intros l' Hl'. apply Hsame. by right.
Qed.

Lemma get_all_sessions_elem sm l :
  l ∈ get_all_sessions sm → ∃ k, (k, l) ∈ active_sessions sm.
Proof.
  unfold get_all_sessions, dict_values.
  intros ([k l'] & -> & Hin)%list_elem_of_fmap. by exists k.
Qed.

Lemma update_session_objects `{Runtime} now sid kwargs sm l :
  get_session_status sid sm ≠ Return (Some l) →
  objects (update_session now sid kwargs sm).1 !! l = objects sm !! l.
Proof.
  unfold update_session, get_session_status. intros Hother.
  destruct (binds_parameter kwargs); [done|].
  destruct (dict_key sid) as [k|]; [|done].
  destruct (dict_get k (active_sessions sm)) as [l0|]; [|done].
  destruct (objects sm !! l0) as [s0|]; [|done].
  assert (l0 ≠ l) by congruence.
  destruct (update_attrs kwargs s0) as [s' [[]|e]]; simpl;
    by apply list_lookup_insert_ne.
Qed.

(** C4, as the code has it. The list [get_all_sessions] returns holds the
    registry's own instances. In a well-formed registry, what is read
    through it is unchanged by a later registration and by a later sweep;
    a later update leaves the entries of the other sessions unchanged, and
    the entry of the updated session is the updated record itself. *)
Theorem get_all_sessions_aliasing `{Runtime} (sm : SessionManager) :
  well_formed sm →
  (∀ now sid uid,
     snapshot_records (register_session now sid uid sm).1
       (get_all_sessions sm)
     = snapshot_records sm (get_all_sessions sm)) ∧
  (∀ now timeout_minutes,
     snapshot_records (cleanup_inactive_sessions now timeout_minutes sm).1
       (get_all_sessions sm)
     = snapshot_records sm (get_all_sessions sm)) ∧
  (∀ now sid kwargs l,
     l ∈ get_all_sessions sm →
     get_session_status sid sm ≠ Return (Some l) →
     objects (update_session now sid kwargs sm).1 !! l = objects sm !! l) ∧
  (∀ now sid kwargs k l,
     dict_key sid = Some k →
     dict_get k (active_sessions sm) = Some l →
     l ∈ get_all_sessions sm ∧
     objects (update_session now sid kwargs sm).1 !! l
     = record_of (update_session now sid kwargs sm).1 k).
Proof.
  intros [Hnd Hwf]. split; [|split; [|split]].
  - intros now sid uid. apply snapshot_records_ext. intros l Hl.
    apply get_all_sessions_elem in Hl as [k Hkl].
    destruct (Hwf k l Hkl) as (s & t & Hs & _).
    unfold register_session. destruct (dict_key sid) as [k'|]; [|done].
    destruct (dict_get k' (active_sessions sm)); [done|]. simpl.
    apply lookup_app_l. by eapply lookup_lt_Some.
  - intros now timeout_minutes. apply snapshot_records_ext. intros l _.
    unfold cleanup_inactive_sessions.
    by destruct (inactive_sessions _ _ _ _).
  - intros now sid kwargs l _. apply update_session_objects.
  - intros now sid kwargs k l Hk Hl. split.
    + unfold get_all_sessions, dict_values.
      apply list_elem_of_fmap. exists (k, l).
      split; [done | by apply dict_get_Some_elem].
    + assert (Hkeys : active_sessions (update_session now sid kwargs sm).1
                      = active_sessions sm).
      { unfold update_session. destruct (binds_parameter kwargs); [done|].
        destruct (dict_key sid) as [k'|]; [|done].
        destruct (dict_get k' (active_sessions sm)) as [l0|]; [|done].
        destruct (objects sm !! l0) as [s0|]; [|done].
        by destruct (update_attrs kwargs s0) as [s' [[]|e]]. }
      unfold record_of. rewrite Hkeys. by rewrite Hl.
Qed.

Lemma get_all_sessions_aliasing_witness :
  snapshot_records
    (register_session 2000 (VStr "s2") (VStr "u2") Example.one_session).1
    (get_all_sessions Example.one_session)
  = snapshot_records Example.one_session (get_all_sessions Example.one_session)
  ∧ objects
      (update_session 2000 (VStr "s1") [("progress", VFloat (1 # 2))]
         Example.one_session).1 !! 0%nat
    = record_of
        (update_session 2000 (VStr "s1") [("progress", VFloat (1 # 2))]
           Example.one_session).1 (KStr "s1").
Proof.
  destruct (get_all_sessions_aliasing Example.one_session
              one_session_well_formed) as (Hreg & _ & _ & Hupd).
  split.
  - apply Hreg.
  - by apply (Hupd 2000 (VStr "s1") [("progress", VFloat (1 # 2))]
                (KStr "s1") 0%nat).
Defined.

(** C4 does not hold as the specification words it: the list returned
    before an update of "s1" shows, once the update is made, the new
    progress of "s1". *)
Lemma get_all_sessions_counterexample :
  snapshot_records
    (update_session 2000 (VStr "s1") [("progress", VFloat (1 # 2))]
       Example.one_session).1
    (get_all_sessions Example.one_session)
  ≠ snapshot_records Example.one_session
      (get_all_sessions Example.one_session).
Proof. discriminate. Qed.

(** ** Which fields an update can reach *)

Section Immutable.
Context `{Runtime}.

Lemma update_session_ids now sid kwargs sm :
  plain kwargs →
  active_sessions (update_session now sid kwargs sm).1 = active_sessions sm ∧
  ∀ l s, objects sm !! l = Some s →
    ∃ s', objects (update_session now sid kwargs sm).1 !! l = Some s' ∧
      session_id s' = session_id s ∧
      (keeps_user_id kwargs → user_id s' = user_id s).
Proof.
  intros Hplain. unfold update_session.
  destruct (binds_parameter kwargs) eqn:Hb; [by eauto|].
  destruct (dict_key sid) as [k|]; [|by eauto].
  destruct (dict_get k (active_sessions sm)) as [l0|]; [|by eauto].
  destruct (objects sm !! l0) as [s0|] eqn:Hs0; [|by eauto].
  rewrite (update_attrs_plain _ _ Hplain). split; [done|].
  intros l s Hs. cbn [fst objects].
  destruct (decide (l = l0)) as [->|Hne].
  - pose proof (eq_trans (eq_sym Hs) Hs0) as [= <-].
    eexists. split.
    { apply list_lookup_insert_eq. by eapply lookup_lt_Some. }
    split.
    + change (get_field Fsession_id
                (set_field Flast_activity (VDatetime now)
                   (apply_fields kwargs s))
              = get_field Fsession_id s).
      rewrite get_set_field_ne by done. apply apply_fields_other.
      intros name v. by apply binds_parameter_session_id.
    + intros Hkeeps.
      change (get_field Fuser_id
                (set_field Flast_activity (VDatetime now)
                   (apply_fields kwargs s))
              = get_field Fuser_id s).
      rewrite get_set_field_ne by done. apply apply_fields_other.
      intros name v Hin Hf. apply (Hkeeps v).
      by rewrite <- (field_of_name_inj name "user_id" Fuser_id).
  - exists s. by rewrite list_lookup_insert_ne.
Qed.
End Immutable.

(** C5, as the code has it. Through any sequence of calls of
    [update_session] whose mappings name no inherited attribute, the
    registry keeps its keys and every record keeps its [session_id]: the
    method cannot be handed a mapping that names it. A record keeps its
    [user_id] when no mapping of the sequence names [user_id]; a mapping
    that names it overwrites it, as it does any other field. *)
Theorem run_updates_ids `{Runtime}
    (calls : list (Z * pyval * list (string * pyval)))
    (sm : SessionManager) :
  Forall (λ c, plain c.2) calls →
  active_sessions (run_updates calls sm) = active_sessions sm ∧
  ∀ k s, record_of sm k = Some s →
    ∃ s', record_of (run_updates calls sm) k = Some s' ∧
      session_id s' = session_id s ∧
      (Forall (λ c, keeps_user_id c.2) calls → user_id s' = user_id s).
Proof.
  unfold run_updates. revert sm.
  induction calls as [|[[now sid] kwargs] calls IH]; intros sm Hplain.
  - split; [done|]. intros k s Hrec. by exists s.
  - apply Forall_cons in Hplain as [Hp Hplain]. simpl in Hp.
    cbn [foldl]. simpl.
    destruct (update_session_ids now sid kwargs sm Hp) as [Hkeys Hobj].
    destruct (IH (update_session now sid kwargs sm).1 Hplain)
      as [Hkeys' Hrec'].
    split; [by rewrite Hkeys'|].
    intros k s Hrec. unfold record_of in Hrec.
    destruct (dict_get k (active_sessions sm)) as [l|] eqn:Hl; [|done].
    simpl in Hrec. destruct (Hobj l s Hrec) as (s1 & Hs1 & Hid1 & Hu1).
    destruct (Hrec' k s1) as (s' & Hs' & Hid' & Hu').
    { unfold record_of. by rewrite Hkeys, Hl. }
    exists s'. split; [done|]. split; [congruence|].
    intros [Hk Hkeeps]%Forall_cons. simpl in Hk.
    rewrite Hu' by done. by apply Hu1.
Qed.

Lemma run_updates_ids_witness :
  ∃ s',
    record_of
      (run_updates
         [(2000, VStr "s1", [("progress", VFloat (1 # 2))]);
          (3000, VStr "s1", [("status", VStr "idle"); ("colour", VNone)])]
         Example.one_session)
      (KStr "s1") = Some s' ∧
    session_id s' = VStr "s1" ∧ user_id s' = VStr "u1".
Proof.
  destruct (run_updates_ids
              [(2000, VStr "s1", [("progress", VFloat (1 # 2))]);
               (3000, VStr "s1", [("status", VStr "idle"); ("colour", VNone)])]
              Example.one_session) as [_ Hrec].
  - repeat constructor.
  - destruct (Hrec (KStr "s1")
                (mkSession (VStr "s1") (VStr "u1") (VStr "active")
                   (VStr "initializing") (VFloat 0) (VDatetime 1000)
                   (VDict [])) eq_refl) as (s' & Hs' & Hid & Hu).
    exists s'. split; [exact Hs'|]. split; [exact Hid|]. apply Hu.
    repeat constructor; intros v Hin;
      repeat (apply elem_of_cons in Hin as [[=]|Hin]);
      by apply elem_of_nil in Hin.
Defined.

(** C5 does not hold as the specification words it: an update whose
    mapping names [user_id] changes the owner of "s1". *)
Lemma update_session_user_id_counterexample :
  user_id <$> record_of Example.one_session (KStr "s1") = Some (VStr "u1") ∧
  user_id <$>
    record_of
      (update_session 2000 (VStr "s1") [("user_id", VStr "mallory")]
         Example.one_session).1 (KStr "s1")
  = Some (VStr "mallory") ∧
  user_id <$>
    record_of
      (update_session 2000 (VStr "s1") [("user_id", VStr "mallory")]
         Example.one_session).1 (KStr "s1")
  ≠ user_id <$> record_of Example.one_session (KStr "s1").
Proof. by repeat split. Qed.

(** ** The hub: replies *)

Section HubFacts.
Context `{Runtime}.

Lemma send_json_open websocket v (st : hub) :
  websocket ∉ closed st.2 → serializable v = true →
  send_json websocket v st
  = ((st.1, {| closed := closed st.2;
               delivered := delivered st.2 ++ [(websocket, json_dumps v)] |}),
     Return tt).
Proof.
  intros Hopen Hser. unfold send_json, dumps, send. rewrite Hser.
  by rewrite bool_decide_eq_false_2.
Qed.

(** A payload that does not parse is answered with an error, to the sender
    alone, and the handler returns. *)
Lemma handle_message_malformed now websocket message (st : hub) :
  json_loads message = None → websocket ∉ closed st.2 →
  handle_message now websocket message st
  = ((st.1, {| closed := closed st.2;
               delivered :=
                 delivered st.2
                 ++ [(websocket,
                      json_dumps (error_reply "Invalid JSON format"))] |}),
     Return tt).
Proof.
  intros Hparse Hopen. unfold handle_message, handle_command.
  rewrite Hparse. by apply send_json_open.
Qed.

(** An exception of the [try] block is answered with an error carrying its
    text, to the sender alone, and the handler returns. *)
Lemma handle_message_exception now websocket message (st st' : hub) e :
  handle_command now websocket message st = (st', Raise e) →
  e ≠ JSONDecodeError → websocket ∉ closed st'.2 →
  handle_message now websocket message st
  = ((st'.1, {| closed := closed st'.2;
                delivered :=
                  delivered st'.2
                  ++ [(websocket, json_dumps (error_reply (str_exn e)))] |}),
     Return tt).
Proof.
  intros Hcmd Hne Hopen. unfold handle_message. rewrite Hcmd.
  destruct e; try done; by apply send_json_open.
Qed.

(** A register command for a free, hashable id: the session is created
    with the ids of the payload and the sender is told of the success. *)
Lemma handle_message_register now websocket message data k (st : hub) :
  json_loads message = Some (VDict data) →
  is_str (py_get data "command") "register_session" = true →
  dict_key (py_get data "session_id") = Some k →
  serializable (py_get data "session_id") = true →
  websocket ∉ closed st.2 →
  dict_get k (active_sessions (session_manager st.1)) = None →
  ∃ st1,
    handle_message now websocket message st = (st1, Return tt) ∧
    clients st1.1 = clients st.1 ∧
    closed st1.2 = closed st.2 ∧
    record_of (session_manager st1.1) k
    = Some {| session_id := py_get data "session_id";
              user_id := py_get data "user_id";
              status := VStr "active";
              current_task := VStr "initializing";
              progress := VFloat 0;
              last_activity := VDatetime now;
              resources_used := VDict [] |} ∧
    delivered st1.2
    = (delivered st.2
       ++ [(websocket,
            json_dumps (VDict [("type", VStr "registration_response");
                               ("success", VBool true);
                               ("session_id", py_get data "session_id")]))]
      )%list.
Proof.
  intros Hparse Hcmd Hk Hser Hopen Hfree.
  destruct (register_session_fresh now (py_get data "session_id")
              (py_get data "user_id") k (session_manager st.1) Hk Hfree)
    as (sm' & Hreg & Hrec).
  unfold handle_message, handle_command. rewrite Hparse, Hcmd, Hreg.
  rewrite send_json_open; [|done|by simpl; rewrite Hser].
  eexists. split; [reflexivity|]. by repeat split.
Qed.

(** A register command for an id already registered: nothing changes and
    the sender is told of the failure. *)
Lemma handle_message_register_again now websocket message data k (st : hub) :
  json_loads message = Some (VDict data) →
  is_str (py_get data "command") "register_session" = true →
  dict_key (py_get data "session_id") = Some k →
  serializable (py_get data "session_id") = true →
  websocket ∉ closed st.2 →
  is_Some (dict_get k (active_sessions (session_manager st.1))) →
  ∃ st1,
    handle_message now websocket message st = (st1, Return tt) ∧
    session_manager st1.1 = session_manager st.1 ∧
    delivered st1.2
    = (delivered st.2
       ++ [(websocket,
            json_dumps (VDict [("type", VStr "registration_response");
                               ("success", VBool false);
                               ("session_id", py_get data "session_id")]))]
      )%list.
Proof.
  intros Hparse Hcmd Hk Hser Hopen Hreg.
  pose proof (register_session_taken now (py_get data "session_id")
                (py_get data "user_id") k (session_manager st.1) Hk Hreg)
    as Hsame.
  unfold handle_message, handle_command. rewrite Hparse, Hcmd, Hsame.
  rewrite send_json_open; [|done|by simpl; rewrite Hser].
  eexists. split; [reflexivity|]. by repeat split.
Qed.
End HubFacts.

(** C10. A register command whose payload has no [session_id] is not
    rejected: the missing id is passed on as None, a session is registered
    under the key None, with the [user_id] of the payload (None as well,
    when that is missing too), and the sender receives a
    [registration_response] with success true; the same command, sent
    again, is answered with success false and changes nothing. A payload
    that omits only [user_id] is registered likewise, with [user_id]
    None. *)
Theorem register_without_ids `{Runtime} (now now' : Z) (websocket : client)
    (message : string) (data : list (string * pyval)) (st : hub) :
  json_loads message = Some (VDict data) →
  is_str (py_get data "command") "register_session" = true →
  websocket ∉ closed st.2 →
  (dict_get "session_id" data = None →
   dict_get KNone (active_sessions (session_manager st.1)) = None →
   ∃ st1 st2,
     handle_message now websocket message st = (st1, Return tt) ∧
     record_of (session_manager st1.1) KNone
     = Some {| session_id := VNone;
               user_id := py_get data "user_id";
               status := VStr "active";
               current_task := VStr "initializing";
               progress := VFloat 0;
               last_activity := VDatetime now;
               resources_used := VDict [] |} ∧
     (dict_get "user_id" data = None →
      user_id <$> record_of (session_manager st1.1) KNone = Some VNone) ∧
     delivered st1.2
     = (delivered st.2
        ++ [(websocket,
             json_dumps (VDict [("type", VStr "registration_response");
                                ("success", VBool true);
                                ("session_id", VNone)]))])%list ∧
     handle_message now' websocket message st1 = (st2, Return tt) ∧
     session_manager st2.1 = session_manager st1.1 ∧
     delivered st2.2
     = (delivered st1.2
        ++ [(websocket,
             json_dumps (VDict [("type", VStr "registration_response");
                                ("success", VBool false);
                                ("session_id", VNone)]))])%list) ∧
  (∀ k, dict_get "user_id" data = None →
   dict_key (py_get data "session_id") = Some k →
   serializable (py_get data "session_id") = true →
   dict_get k (active_sessions (session_manager st.1)) = None →
   ∃ st1,
     handle_message now websocket message st = (st1, Return tt) ∧
     user_id <$> record_of (session_manager st1.1) k = Some VNone ∧
     delivered st1.2
     = (delivered st.2
        ++ [(websocket,
             json_dumps (VDict [("type", VStr "registration_response");
                                ("success", VBool true);
                                ("session_id", py_get data "session_id")]))]
       )%list).
Proof.
  intros Hparse Hcmd Hopen. split.
  - intros Hnone Hfree.
    assert (Hsid : py_get data "session_id" = VNone)
      by (unfold py_get; by rewrite Hnone).
    destruct (handle_message_register now websocket message data KNone st)
      as (st1 & Hrun & Hclients & Hclosed & Hrec & Hsent);
      try done; try by rewrite Hsid.
    destruct (handle_message_register_again now' websocket message data
                KNone st1) as (st2 & Hrun2 & Hsame & Hsent2);
      try done; try by rewrite Hsid.
    { by rewrite Hclosed. }
    { unfold record_of in Hrec.
      destruct (dict_get KNone (active_sessions (session_manager st1.1)));
        [eauto | done]. }
    rewrite Hsid in *. exists st1, st2. repeat split; try done.
    intros Huid. rewrite Hrec. simpl. unfold py_get. by rewrite Huid.
  - intros k Huid Hk Hser Hfree.
    destruct (handle_message_register now websocket message data k st)
      as (st1 & Hrun & _ & _ & Hrec & Hsent); try done.
    exists st1. repeat split; try done.
    rewrite Hrec. simpl. unfold py_get. by rewrite Huid.
Qed.

Lemma register_without_ids_witness :
  ∃ st1 st2,
    handle_message 1000 7%nat "register" Example.fresh_hub
    = (st1, Return tt) ∧
    user_id <$> record_of (session_manager st1.1) KNone = Some VNone ∧
    delivered st1.2
    = [(7%nat,
        json_dumps (VDict [("type", VStr "registration_response");
                           ("success", VBool true);
                           ("session_id", VNone)]))] ∧
    handle_message 2000 7%nat "register" st1 = (st2, Return tt) ∧
    delivered st2.2
    = (delivered st1.2
       ++ [(7%nat,
            json_dumps (VDict [("type", VStr "registration_response");
                               ("success", VBool false);
                               ("session_id", VNone)]))])%list.
Proof.
  destruct (register_without_ids 1000 2000 7%nat "register"
              [("command", VStr "register_session")] Example.fresh_hub)
    as [Hnone _].
  - reflexivity.
  - reflexivity.
  - apply not_elem_of_nil.
  - destruct (Hnone eq_refl eq_refl)
      as (st1 & st2 & Hrun & _ & Huid & Hsent & Hrun2 & _ & Hsent2).
    exists st1, st2. split; [exact Hrun|]. split; [by apply Huid|].
    split; [exact Hsent|]. split; [exact Hrun2 | exact Hsent2].
Defined.

(** ** The hub: commands that are not recognised *)

(** C6, where the code departs from it. A payload that parses to an object
    whose [command] is none of [register_session], [update_session] and
    [get_sessions] falls through the [if]/[elif] chain: the handler
    returns, and nothing is sent to the client, no error either; the hub is
    left as it was. *)
Theorem handle_message_unrecognized `{Runtime} (now : Z) (websocket : client)
    (message : string) (data : list (string * pyval)) (st : hub) :
  json_loads message = Some (VDict data) →
  is_str (py_get data "command") "register_session" = false →
  is_str (py_get data "command") "update_session" = false →
  is_str (py_get data "command") "get_sessions" = false →
  handle_message now websocket message st = (st, Return tt).
Proof.
  intros Hparse Hreg Hupd Hget. unfold handle_message, handle_command.
  by rewrite Hparse, Hreg, Hupd, Hget.
Qed.

Lemma handle_message_unrecognized_witness :
  handle_message 1000 7%nat "dance" Example.fresh_hub
  = (Example.fresh_hub, Return tt) ∧
  delivered Example.fresh_hub.2 = [].
Proof.
  split; [|reflexivity].
  by apply (handle_message_unrecognized 1000 7%nat "dance"
              [("command", VStr "dance")] Example.fresh_hub).
Defined.

(** ** The hub: broadcast *)

Section Broadcast.
Context `{Runtime}.

Lemma broadcast_loop_spec message_str cs disconnected net :
  ∃ net' disconnected',
    broadcast_loop message_str cs disconnected net
    = ((net', disconnected'), Return tt) ∧
    closed net' = closed net ∧
    delivered net'
    = (delivered net
       ++ ((λ c, (c, message_str)) <$> filter (λ c, c ∉ closed net) cs))%list ∧
    ∀ c, c ∈ disconnected' ↔ c ∈ disconnected ∨ (c ∈ cs ∧ c ∈ closed net).
Proof.
  revert disconnected net.
  induction cs as [|c cs IH]; intros disconnected net.
  - exists net, disconnected. split; [done|]. split; [done|]. split.
    + by rewrite filter_nil, fmap_nil, app_nil_r.
    + intros c. split; [by left|]. intros [?|[?%elem_of_nil _]]; done.
  - cbn [broadcast_loop]. unfold send.
    destruct (decide (c ∈ closed net)) as [Hc|Hc].
    + rewrite bool_decide_eq_true_2 by done.
      destruct (IH (c :: disconnected) net)
        as (net' & disc' & Hrun & Hclosed & Hsent & Hdisc).
      exists net', disc'. split; [done|]. split; [done|]. split.
      * rewrite filter_cons_False by (intros Hn; by apply Hn). done.
      * intros c'. rewrite (Hdisc c'), !elem_of_cons. split.
        -- intros [[->|?]|[? ?]]; eauto.
        -- intros [?|[[->|?] ?]]; eauto.
    + rewrite bool_decide_eq_false_2 by done.
      destruct (IH disconnected
                  {| closed := closed net;
                     delivered := delivered net ++ [(c, message_str)] |})
        as (net' & disc' & Hrun & Hclosed & Hsent & Hdisc).
      exists net', disc'. split; [done|]. split; [done|]. split.
      * rewrite Hsent. cbn [closed delivered].
        rewrite filter_cons_True by done.
        by rewrite fmap_cons, <- app_assoc.
      * intros c'. rewrite (Hdisc c'), elem_of_cons. cbn [closed]. split.
        -- intros [?|[? ?]]; eauto.
        -- intros [?|[[->|?] ?]]; eauto. done.
Qed.

Lemma filter_connected (cs disconnected closed_now : list client) :
  (∀ c, c ∈ disconnected ↔ c ∈ [] ∨ (c ∈ cs ∧ c ∈ closed_now)) →
  filter (λ c, c ∉ disconnected) cs = filter (λ c, c ∉ closed_now) cs.
Proof.
  intros Hdisc.
  assert (Hsame : ∀ c, c ∈ cs → (c ∉ disconnected ↔ c ∉ closed_now)).
  { intros c Hc. rewrite (Hdisc c). split.
    - intros Hn Hcl. apply Hn. by right.
    - intros Hn [?%elem_of_nil|[_ ?]]; done. }
  clear Hdisc. induction cs as [|c cs IH]; [done|].
  rewrite !filter_cons.
  destruct (decide (c ∉ disconnected)) as [Hd|Hd];
    destruct (decide (c ∉ closed_now)) as [Hc|Hc].
  - f_equal. apply IH. intros c' Hc'. apply Hsame. by right.
  - exfalso. apply Hc. apply Hsame; [left|done].
  - exfalso. apply Hd. apply Hsame; [left|done].
  - apply IH. intros c' Hc'. apply Hsame. by right.
Qed.
End Broadcast.

Section Interrupted.
Context `{Runtime}.

(** [next] on a set whose size is no longer the one the loop began with. *)
Lemma broadcast_iter_changed message_str used todo during disconnected st :
  length (clients st.1) ≠ used →
  broadcast_iter message_str used todo during disconnected st
  = ((st, disconnected), Raise set_changed_size).
Proof.
  intros Hsize.
  destruct todo; cbn [broadcast_iter]; by rewrite bool_decide_eq_false_2.
Qed.

(** As long as the other tasks do nothing, the loop over the live set is
    the loop over the list of the clients. *)
Lemma broadcast_iter_quiet message_str srv (j : nat) :
  ∀ todo during disconnected net,
  (j ≤ todo ≤ length (clients srv))%nat →
  Forall (λ w : interference, w = id) (take j during) →
  ∃ net' disconnected',
    broadcast_loop message_str
      (take j (drop (length (clients srv) - todo) (clients srv)))
      disconnected net
    = ((net', disconnected'), Return tt) ∧
    broadcast_iter message_str (length (clients srv)) todo during
      disconnected (srv, net)
    = broadcast_iter message_str (length (clients srv)) (todo - j)
        (drop j during) disconnected' (srv, net').
Proof.
  induction j as [|j IH]; intros todo during disconnected net Hj Hquiet.
  - exists net, disconnected. rewrite Nat.sub_0_r. by rewrite drop_0.
  - destruct todo as [|todo]; [lia|].
    destruct (lookup_lt_is_Some_2 (clients srv)
                (length (clients srv) - S todo)) as [c Hc]; [lia|].
    rewrite (drop_S _ _ _ Hc).
    replace (S (length (clients srv) - S todo))
      with (length (clients srv) - todo)%nat by lia.
    assert (Hhd : hd id during = id ∧
                  Forall (λ w : interference, w = id) (take j (tl during))).
    { destruct during as [|w ws].
      - split; [done|]. cbn [tl]. rewrite take_nil. constructor.
      - cbn [take] in Hquiet. by apply Forall_cons in Hquiet as [-> ?]. }
    destruct Hhd as [Hhd Htl].
    assert (Hdrop : drop (S j) during = drop j (tl during))
      by (destruct during; simpl; [by rewrite drop_nil|done]).
    cbn [broadcast_iter broadcast_loop take fst snd].
    rewrite bool_decide_eq_true_2, Hc, Hhd, Hdrop by done.
    replace (S todo - S j)%nat with (todo - j)%nat by lia.
    unfold send. destruct (bool_decide (c ∈ closed net)).
    + destruct (IH todo (tl during) (c :: disconnected) net)
        as (net' & disc' & Hloop & Hiter); [lia|done|].
      exists net', disc'. by rewrite Hloop.
    + destruct (IH todo (tl during) disconnected
                  {| closed := closed net;
                     delivered := delivered net ++ [(c, message_str)] |})
        as (net' & disc' & Hloop & Hiter); [lia|done|].
      exists net', disc'. by rewrite Hloop.
Qed.

(** When no other task does anything meanwhile, the broadcast among other
    tasks is the broadcast run without interruption. *)
Lemma broadcast_update_alone during message (st : hub) :
  Forall (λ w : interference, w = id) during →
  broadcast_update_during during message st = broadcast_update message st.
Proof.
  intros Hquiet. unfold broadcast_update_during, broadcast_update.
  destruct (clients st.1) as [|c0 cs] eqn:Hcs; [done|].
  destruct (dumps message) as [message_str|e]; [|done].
  destruct st as [srv net]. cbn [fst snd] in *.
  destruct (broadcast_iter_quiet message_str srv (length (clients srv))
              (length (clients srv)) during [] net)
    as (net' & disc' & Hloop & Hiter);
    [lia|by apply Forall_take|].
  rewrite Nat.sub_diag, drop_0, firstn_all in Hloop.
  rewrite Hcs in Hloop, Hiter. rewrite Hiter, Hloop.
  rewrite Nat.sub_diag. cbn [broadcast_iter fst snd].
  rewrite Hcs, bool_decide_eq_true_2 by done.
  cbn [fst snd]. by rewrite Hcs.
Qed.

(** C7, where the code misses it. The loop of [broadcast_update] walks the
    set [self.clients] itself, and is suspended at every [send]. When,
    while the message is sent to a client, another task adds a client to
    the set or takes one out (a client connects, or the handler of one
    that disconnected ends), the next step of the loop raises
    RuntimeError, which nothing catches: the broadcast ends there. The
    clients that come after in the set are not sent the message, though
    their sockets are open, and the clients found disconnected so far are
    not taken out of the set. *)
Theorem broadcast_update_interrupted (message : pyval) (st : hub)
    (before after : list client) (c : client) (w : interference)
    (later : list interference) :
  serializable message = true →
  clients st.1 = (before ++ c :: after)%list →
  (∀ net, length (clients (w (st.1, net)).1) ≠ length (clients st.1)) →
  ∃ net,
    broadcast_update_during (replicate (length before) id ++ w :: later)
      message st
    = (w (st.1, net), Raise set_changed_size) ∧
    closed net = closed st.2 ∧
    delivered net
    = (delivered st.2
       ++ ((λ c, (c, json_dumps message))
             <$> filter (λ c, c ∉ closed st.2) (before ++ [c])))%list.
Proof.
  intros Hser Hcs Hw. unfold broadcast_update_during, dumps.
  rewrite Hser. destruct st as [srv net0]. cbn [fst snd] in *.
  assert (Hnil : clients srv ≠ []) by (rewrite Hcs; by destruct before).
  destruct (clients srv) as [|c0 cs0] eqn:Hsrv; [done|].
  rewrite <- Hsrv in *. clear Hnil c0 cs0 Hsrv.
  destruct (broadcast_iter_quiet (json_dumps message) srv (length before)
              (length (clients srv))
              (replicate (length before) id ++ w :: later) [] net0)
    as (net1 & disc1 & Hloop & Hiter).
  { rewrite Hcs, length_app. lia. }
  { rewrite take_app_length'; [|by rewrite length_replicate].
    by apply Forall_replicate. }
  rewrite Nat.sub_diag, drop_0, Hcs, take_app_length in Hloop.
  destruct (broadcast_loop_spec (json_dumps message) before [] net0)
    as (net1' & disc1' & Hloop' & Hclosed1 & Hsent1 & _).
  rewrite Hloop in Hloop'. injection Hloop' as <- <-.
  rewrite drop_app_length' in Hiter by (by rewrite length_replicate).
  assert (Hcount : (length (clients srv) - length before
                    = S (length after))%nat).
  { rewrite Hcs, length_app. cbn [length]. lia. }
  assert (Hc : clients srv !! (length (clients srv) - S (length after))%nat
               = Some c).
  { replace (length (clients srv) - S (length after))%nat
      with (length before + 0)%nat
      by (rewrite Hcs, length_app; cbn [length]; lia).
    rewrite Hcs. by rewrite lookup_app_r, Nat.add_0_r, Nat.sub_diag by lia. }
  rewrite Hcount in Hiter.
  cbn [broadcast_iter fst snd hd tl] in Hiter.
  rewrite bool_decide_eq_true_2, Hc in Hiter by done.
  rewrite Hiter. clear Hiter. unfold send.
  destruct (decide (c ∈ closed net1)) as [Hclosed|Hopen].
  - rewrite bool_decide_eq_true_2 by done.
    rewrite broadcast_iter_changed by apply Hw.
    exists net1. split; [done|]. split; [done|].
    rewrite Hsent1, filter_app, filter_cons_False, filter_nil, app_nil_r;
      [done|].
    intros Hn. apply Hn. by rewrite <- Hclosed1.
  - rewrite bool_decide_eq_false_2 by done.
    rewrite broadcast_iter_changed by apply Hw.
    eexists. split; [done|]. cbn [closed delivered]. split; [done|].
    rewrite Hsent1, filter_app, filter_cons_True, filter_nil, fmap_app,
      app_assoc; [done|].
    by rewrite <- Hclosed1.
Qed.
End Interrupted.

(** Four clients are connected, their sockets open. While the message is
    sent to the first, the fourth disconnects and its handler ends: the
    broadcast raises RuntimeError, and the second and the third client,
    whose sockets are open, are sent nothing. *)
Lemma broadcast_update_interrupted_witness :
  ∃ st',
    broadcast_update_during [disconnect 4%nat]
      (Example.sessions_cleaned 5000) Example.open_clients
    = (st', Raise set_changed_size) ∧
    clients st'.1 = [1; 2; 3]%nat ∧
    delivered st'.2 = [(1%nat, json_dumps (Example.sessions_cleaned 5000))].
Proof.
  destruct (broadcast_update_interrupted (Example.sessions_cleaned 5000)
              Example.open_clients [] [2; 3; 4]%nat 1%nat
              (disconnect 4%nat) [] eq_refl eq_refl)
    as (net & Hrun & Hclosed & Hsent).
  { intros net. vm_compute. lia. }
  eexists. split; [exact Hrun|]. split.
  - reflexivity.
  - change (delivered net
            = [(1%nat, json_dumps (Example.sessions_cleaned 5000))]).
    rewrite Hsent. reflexivity.
Defined.

(** ** The durability layer: failures *)

(** C8, as the code has it. When the module [sqlite3] is missing,
    [save_session] does nothing and [load_sessions] returns no session,
    both silently, and the start-up leaves the registry as it is. When the
    module is there and the database cannot be opened, both raise the
    database's error, the storage is left as it was, and the start-up
    passes the error on, the registry unchanged. *)
Theorem durability_failures `{Runtime} (now : Z) (session : Session)
    (db : Storage) (sm : SessionManager) :
  (sqlite3_available db = false →
   save_session now session db = (db, Return tt) ∧
   load_sessions db = Return [] ∧
   start_orchestration db sm = (sm, Return tt)) ∧
  (sqlite3_available db = true → database_fault db = true →
   save_session now session db = (db, Raise database_error) ∧
   load_sessions db = Raise database_error ∧
   start_orchestration db sm = (sm, Raise database_error)).
Proof.
  unfold start_orchestration, save_session, load_sessions. split.
  - by intros ->.
  - by intros -> ->.
Qed.

Lemma durability_failures_witness :
  (save_session 5000 Example.s1 Example.no_sqlite3
   = (Example.no_sqlite3, Return tt) ∧
   load_sessions Example.no_sqlite3 = Return []) ∧
  (save_session 5000 Example.s1 Example.broken_storage
   = (Example.broken_storage, Raise database_error) ∧
   start_orchestration Example.broken_storage Example.one_session
   = (Example.one_session, Raise database_error)).
Proof.
  destruct (durability_failures 5000 Example.s1 Example.no_sqlite3
              Example.one_session) as [Hmissing _].
  destruct (durability_failures 5000 Example.s1 Example.broken_storage
              Example.one_session) as [_ Hbroken].
  destruct (Hmissing eq_refl) as (Hsave & Hload & _).
  destruct (Hbroken eq_refl eq_refl) as (Hsave' & _ & Hstart).
  by repeat split.
Defined.

(** C8 does not hold as the specification words it: with a database that
    cannot be opened, saving and loading raise, and so does the shutdown
    that saves the sessions. *)
Lemma durability_counterexample :
  (save_session 5000 Example.s1 Example.broken_storage).2
  = Raise database_error ∧
  load_sessions Example.broken_storage = Raise database_error ∧
  (shutdown 5000 Example.one_session Example.broken_storage).2
  = Raise database_error.
Proof. by repeat split. Qed.

(** ** The durability layer: saving and loading back *)

Section RoundTrip.
Context `{Runtime}.


Lemma load_rows_Forall2 rows sessions :
  load_rows rows = Return sessions ↔
  Forall2 (λ r s, load_row r = Return s) rows sessions.
Proof.
  revert sessions. induction rows as [|r rows IH]; intros sessions; simpl.
  - split.
    + intros [= <-]. constructor.
    + by intros ->%Forall2_nil_inv_l.
  - split.
    + destruct (load_row r) as [s|e] eqn:Hs; simpl; [|done].
      destruct (load_rows rows) as [ss|e] eqn:Hss; simpl; [|done].
      intros [= <-]. constructor; [done|]. by apply IH.
    + intros (s & ss & Hs & Hss & ->)%Forall2_cons_inv_l.
      rewrite Hs. simpl. apply IH in Hss. by rewrite Hss.
Qed.


End RoundTrip.

(** ** Upserts *)

Lemma Forall2_elem_l {A B} (R : A → B → Prop) l k x :
  Forall2 R l k → x ∈ l → ∃ y, y ∈ k ∧ R x y.
Proof.
  induction 1 as [|x0 y0 l k HR _ IH].
  - by intros ?%elem_of_nil.
  - intros [->|Hin]%elem_of_cons.
    + exists y0. split; [left|done].
    + destruct (IH Hin) as (y & ? & ?). exists y. split; [by right|done].
Qed.

Lemma Forall2_elem_r {A B} (R : A → B → Prop) l k y :
  Forall2 R l k → y ∈ k → ∃ x, x ∈ l ∧ R x y.
Proof.
  induction 1 as [|x0 y0 l k HR _ IH].
  - by intros ?%elem_of_nil.
  - intros [->|Hin]%elem_of_cons.
    + exists x0. split; [left|done].
    + destruct (IH Hin) as (x & ? & ?). exists x. split; [by right|done].
Qed.




Section SaveAll.
Context `{Runtime}.

End SaveAll.

Section SaveLoad.
Context `{Runtime}.




Lemma load_rows_elem rows ss :
  load_rows rows = Return ss →
  ∀ s, s ∈ ss ↔ ∃ r, r ∈ rows ∧ load_row r = Return s.
Proof.
  intros Hload%load_rows_Forall2 s. split.
  - intros Hs. by apply (Forall2_elem_r _ _ _ _ Hload).
  - intros (r & Hr & Hrs).
    destruct (Forall2_elem_l _ _ _ _ Hload Hr) as (s0 & Hs0 & Hrs0).
    congruence.
Qed.


Lemma record_of_elem sm k s :
  record_of sm k = Some s →
  ∃ l, (k, l) ∈ active_sessions sm ∧ objects sm !! l = Some s.
Proof.
  unfold record_of.
  destruct (dict_get k (active_sessions sm)) as [l|] eqn:Hl; [|done].
  simpl. intros Hs. exists l. split; [by apply dict_get_Some_elem|done].
Qed.
End SaveLoad.





(** ** The registries a manager goes through are well formed *)

Lemma dict_set_fresh {K V} `{EqDecision K} (k : K) (v : V) d :
  dict_get k d = None → dict_set k v d = (d ++ [(k, v)])%list.
Proof.
  induction d as [|[k' v'] d IH]; simpl; [done|].
  destruct (decide (k = k')); [done|]. intros Hd. by rewrite IH.
Qed.

Lemma dict_del_elem {K V} `{EqDecision K} (k : K) (d : list (K * V)) p :
  p ∈ dict_del k d → p ∈ d.
Proof. unfold dict_del. by intros [_ ?]%list_elem_of_filter. Qed.

Lemma dict_del_NoDup {K V} `{EqDecision K} (k : K) (d : list (K * V)) :
  NoDup (dict_keys d) → NoDup (dict_keys (dict_del k d)).
Proof.
  unfold dict_keys, dict_del. induction d as [|[k0 v0] d IH]; [done|].
  rewrite fmap_cons. intros [Hk0 Hnd]%NoDup_cons. rewrite filter_cons.
  destruct (decide ((k0, v0).1 ≠ k)); [|by apply IH].
  rewrite fmap_cons. apply NoDup_cons. split; [|by apply IH].
  intros (p & Hp & [_ Hin]%list_elem_of_filter)%list_elem_of_fmap.
  apply Hk0. apply list_elem_of_fmap. by exists p.
Qed.

Lemma well_formed_init : well_formed SessionManager_init.
Proof.
  split; [constructor|]. by intros k l ?%elem_of_nil.
Qed.

Lemma register_session_well_formed now sid uid sm :
  well_formed sm → well_formed (register_session now sid uid sm).1.
Proof.
  intros [Hnd Hwf]. unfold register_session.
  destruct (dict_key sid) as [k|]; [|done].
  destruct (dict_get k (active_sessions sm)) as [l|] eqn:Hk; [done|].
  cbn [fst]. rewrite (dict_set_fresh _ _ _ Hk). split.
  - cbn [active_sessions]. unfold dict_keys in *. rewrite fmap_app.
    apply NoDup_app. split; [done|]. split; [|apply NoDup_singleton].
    intros k' Hk' [= ->]%list_elem_of_singleton.
    by apply dict_get_None in Hk.
  - cbn [active_sessions objects].
    intros k' l' [Hold|[= -> ->]%list_elem_of_singleton]%elem_of_app.
    + destruct (Hwf k' l' Hold) as (s & t & Hs & Ht).
      exists s, t. split; [|done]. rewrite lookup_app_l; [done|].
      by eapply lookup_lt_Some.
    + eexists _, now. split; [apply list_lookup_middle|]; done.
Qed.

Lemma update_session_well_formed `{Runtime} now sid kwargs sm :
  plain kwargs → well_formed sm →
  well_formed (update_session now sid kwargs sm).1.
Proof.
  intros Hplain [Hnd Hwf]. unfold update_session.
  destruct (binds_parameter kwargs); [done|].
  destruct (dict_key sid) as [k|]; [|done].
  destruct (dict_get k (active_sessions sm)) as [l0|]; [|done].
  destruct (objects sm !! l0) as [s0|] eqn:Hs0; [|done].
  rewrite (update_attrs_plain _ _ Hplain). cbn [fst]. split; [done|].
  cbn [active_sessions objects]. intros k' l' Hin.
  destruct (decide (l' = l0)) as [->|Hne].
  - eexists _, now. split.
    + apply list_lookup_insert_eq. by eapply lookup_lt_Some.
    + done.
  - destruct (Hwf k' l' Hin) as (s & t & Hs & Ht).
    exists s, t. split; [|done]. by rewrite list_lookup_insert_ne.
Qed.

Lemma cleanup_inactive_sessions_well_formed now timeout_minutes sm :
  well_formed sm →
  well_formed (cleanup_inactive_sessions now timeout_minutes sm).1.
Proof.
  intros [Hnd Hwf]. unfold cleanup_inactive_sessions.
  destruct (inactive_sessions _ _ _ _) as [ids|e]; [|done].
  cbn [fst]. revert Hnd Hwf. generalize (objects sm) (active_sessions sm).
  induction ids as [|id ids IH]; intros objs d Hnd Hwf; [done|].
  cbn [foldl]. destruct (IH objs (dict_del id d)) as [Hnd' Hwf'].
  - by apply dict_del_NoDup.
  - intros k l Hin. apply (Hwf k l). by eapply dict_del_elem.
  - by split.
Qed.

(** * Further properties of the code *)

(** ** The registry *)

(** A successful registration puts the new session last in the list of
    sessions, makes it the answer of [get_session_status] for its id, and
    leaves the record of every other id as it was. *)
Theorem register_session_frame (now : Z) (sid uid : pyval) (k : key)
    (sm : SessionManager) :
  well_formed sm → dict_key sid = Some k →
  dict_get k (active_sessions sm) = None →
  get_all_sessions (register_session now sid uid sm).1
  = (get_all_sessions sm ++ [length (objects sm)])%list ∧
  get_session_status sid (register_session now sid uid sm).1
  = Return (Some (length (objects sm))) ∧
  ∀ k', k' ≠ k →
    record_of (register_session now sid uid sm).1 k' = record_of sm k'.
Proof.
  intros [Hnd Hwf] Hk Hfree. unfold register_session, get_session_status.
  rewrite Hk, Hfree. cbn [fst active_sessions]. split; [|split].
  - unfold get_all_sessions, dict_values. cbn [active_sessions].
    by rewrite (dict_set_fresh _ _ _ Hfree), fmap_app.
  - by rewrite dict_get_set_eq.
  - intros k' Hne. unfold record_of. cbn [active_sessions objects].
    rewrite dict_get_set_ne by done.
    destruct (dict_get k' (active_sessions sm)) as [l|] eqn:Hl; [|done].
    simpl. apply dict_get_Some_elem in Hl.
    destruct (Hwf k' l Hl) as (s & t & Hs & _).
    apply lookup_app_l. by eapply lookup_lt_Some.
Qed.

Lemma register_session_frame_witness :
  get_all_sessions
    (register_session 2000 (VStr "s2") (VStr "u2") Example.one_session).1
  = [0; 1]%nat ∧
  record_of
    (register_session 2000 (VStr "s2") (VStr "u2") Example.one_session).1
    (KStr "s1")
  = Some Example.s1.
Proof.
  destruct (register_session_frame 2000 (VStr "s2") (VStr "u2") (KStr "s2")
              Example.one_session one_session_well_formed eq_refl eq_refl)
    as (Hall & _ & Hframe).
  split; [exact Hall|]. by rewrite Hframe.
Defined.

Section PartialUpdate.
Context `{Runtime}.

Lemma update_attrs_raise pre name value post s e :
  plain pre → field_of_name name = None → inherited_attr name = true →
  setattr_inherited name value (apply_fields pre s) = Raise e →
  update_attrs (pre ++ (name, value) :: post) s
  = (apply_fields pre s, Raise e).
Proof.
  intros Hplain Hname Hinh. revert s.
  induction pre as [|[n0 v0] pre IH]; intros s Hraise.
  - cbn [app update_attrs]. unfold hasattr, setattr. rewrite Hname, Hinh.
    unfold apply_fields in Hraise. simpl in Hraise. by rewrite Hraise.
  - apply Forall_cons in Hplain as [Hn0 Hplain]. simpl in Hn0.
    cbn [app update_attrs]. unfold hasattr, setattr.
    unfold apply_fields in *. cbn [foldl] in *. simpl in *.
    destruct (field_of_name n0); [by apply IH|].
    rewrite Hn0. by apply IH.
Qed.
End PartialUpdate.

(** An update is not atomic. When [setattr] raises on an inherited
    attribute, the fields that the mapping names before it have been
    written already and stay written, the exception leaves the method, and
    [last_activity] is not refreshed. *)
Theorem update_session_partial `{Runtime} (now : Z) (sid : pyval) (k : key)
    (pre post : list (string * pyval)) (name : string) (value : pyval)
    (e : exn) (s : Session) (sm : SessionManager) :
  dict_key sid = Some k → record_of sm k = Some s →
  binds_parameter (pre ++ (name, value) :: post) = false →
  plain pre → field_of_name name = None → inherited_attr name = true →
  setattr_inherited name value (apply_fields pre s) = Raise e →
  ∃ sm',
    update_session now sid (pre ++ (name, value) :: post) sm
    = (sm', Raise e) ∧
    record_of sm' k = Some (apply_fields pre s).
Proof.
  intros Hk Hrec Hb Hplain Hname Hinh Hraise.
  unfold update_session. rewrite Hb, Hk. unfold record_of in *.
  destruct (dict_get k (active_sessions sm)) as [l|] eqn:Hl; [|done].
  simpl in Hrec. rewrite Hrec.
  rewrite (update_attrs_raise _ _ _ _ _ _ Hplain Hname Hinh Hraise).
  eexists. split; [reflexivity|]. cbn [active_sessions objects].
  rewrite Hl. simpl. apply list_lookup_insert_eq. by eapply lookup_lt_Some.
Qed.

Lemma update_session_partial_witness :
  ∃ sm',
    update_session 2000 (VStr "s1")
      [("progress", VFloat (1 # 2)); ("__class__", VInt 1);
       ("status", VStr "idle")]
      Example.one_session
    = (sm', Raise (TypeError "cannot set attribute")) ∧
    record_of sm' (KStr "s1")
    = Some (set_field Fprogress (VFloat (1 # 2)) Example.s1).
Proof.
  apply (update_session_partial 2000 (VStr "s1") (KStr "s1")
           [("progress", VFloat (1 # 2))] [("status", VStr "idle")]
           "__class__" (VInt 1) (TypeError "cannot set attribute")
           Example.s1 Example.one_session); try reflexivity.
  repeat constructor.
Defined.

(** ** Every run of the manager *)

Lemma run_op_well_formed `{Runtime} o sm :
  plain_op o → well_formed sm → well_formed (run_op o sm).
Proof.
  destruct o as [now sid uid|now sid kwargs|now timeout]; simpl; intros Hp Hwf.
  - by apply register_session_well_formed.
  - by apply update_session_well_formed.
  - by apply cleanup_inactive_sessions_well_formed.
Qed.

(** Whatever registrations, updates (naming no inherited attribute) and
    sweeps a new manager goes through, its registry has no id twice, every
    entry refers to an instance whose [last_activity] is a datetime, and
    the next sweep, at any clock reading and timeout, returns without an
    exception. *)
Theorem run_ops_well_formed `{Runtime} (ops : list op) :
  Forall plain_op ops →
  well_formed (run_ops ops SessionManager_init) ∧
  ∀ now timeout_minutes,
    (cleanup_inactive_sessions now timeout_minutes
       (run_ops ops SessionManager_init)).2 = Return VNone.
Proof.
  intros Hops.
  assert (Hwf : well_formed (run_ops ops SessionManager_init)).
  { unfold run_ops. generalize well_formed_init.
    generalize SessionManager_init. induction Hops as [|o ops Ho _ IH];
      intros sm Hsm; [done|].
    cbn [foldl]. apply IH. by apply run_op_well_formed. }
  split; [done|]. intros now timeout_minutes.
  destruct Hwf as [_ Hrefs].
  destruct (inactive_sessions_spec _ now timeout_minutes _ Hrefs)
    as (ids & Hids & _).
  unfold cleanup_inactive_sessions. by rewrite Hids.
Qed.

Lemma run_ops_well_formed_witness :
  well_formed
    (run_ops
       [Register 1000 (VStr "s1") (VStr "u1");
        Update 2000 (VStr "s1") [("last_activity", VInt 5)];
        Cleanup 3000 30;
        Register 4000 VNone VNone]
       SessionManager_init) ∧
  (cleanup_inactive_sessions 9000000000 30
     (run_ops
        [Register 1000 (VStr "s1") (VStr "u1");
         Update 2000 (VStr "s1") [("last_activity", VInt 5)];
         Cleanup 3000 30;
         Register 4000 VNone VNone]
        SessionManager_init)).2 = Return VNone.
Proof.
  destruct (run_ops_well_formed
              [Register 1000 (VStr "s1") (VStr "u1");
               Update 2000 (VStr "s1") [("last_activity", VInt 5)];
               Cleanup 3000 30;
               Register 4000 VNone VNone]) as [Hwf Hsweep].
  - repeat constructor.
  - split; [exact Hwf | apply Hsweep].
Defined.

(** ** Sweeps *)

Lemma dict_del_all_elem {K V} `{EqDecision K} (ids : list K)
    (d : list (K * V)) p :
  p ∈ foldl (λ d id, dict_del id d) d ids → p ∈ d.
Proof.
  revert d. induction ids as [|id ids IH]; intros d; [done|].
  cbn [foldl]. intros Hp%IH. by eapply dict_del_elem.
Qed.

Lemma dict_del_all_sublist {K V} `{EqDecision K} (ids : list K)
    (d : list (K * V)) :
  foldl (λ d id, dict_del id d) d ids `sublist_of` d.
Proof.
  revert d. induction ids as [|id ids IH]; intros d; [done|].
  cbn [foldl]. etransitivity; [apply IH|]. apply sublist_filter.
Qed.

Lemma cleanup_retains now timeout_minutes sm k s t :
  well_formed sm → record_of sm k = Some s → last_activity s = VDatetime t →
  (now - t ≤ timeout_minutes * 60000000)%Z →
  record_of (cleanup_inactive_sessions now timeout_minutes sm).1 k = Some s.
Proof.
  intros [Hnd Hwf] Hrec Ht Hfresh.
  destruct (inactive_sessions_spec (objects sm) now timeout_minutes
              (active_sessions sm) Hwf) as (ids & Hids & Hin).
  unfold cleanup_inactive_sessions. rewrite Hids.
  unfold record_of in *. cbn [fst objects active_sessions].
  rewrite dict_get_del_all.
  destruct (decide (k ∈ ids)) as [Hk|]; [|done].
  exfalso. apply Hin in Hk as (l & s' & t' & Hkl & Hs' & Ht' & Hidle).
  rewrite (dict_get_elem _ _ _ Hnd Hkl) in Hrec. simpl in Hrec.
  rewrite Hs' in Hrec. injection Hrec as ->.
  rewrite Ht' in Ht. injection Ht as ->.
  by apply (time_diff_fresh timeout_minutes now t).
Qed.

(** A sweep keeps the sessions that stay in the order they had, and a
    second sweep at the same clock reading and with the same timeout
    removes nothing more. *)
Theorem cleanup_inactive_sessions_idempotent (now timeout_minutes : Z)
    (sm : SessionManager) :
  well_formed sm →
  get_all_sessions (cleanup_inactive_sessions now timeout_minutes sm).1
  `sublist_of` get_all_sessions sm ∧
  cleanup_inactive_sessions now timeout_minutes
    (cleanup_inactive_sessions now timeout_minutes sm).1
  = ((cleanup_inactive_sessions now timeout_minutes sm).1, Return VNone).
Proof.
  intros Hsm.
  pose proof (cleanup_inactive_sessions_well_formed now timeout_minutes sm
                Hsm) as [Hnd1 Hwf1].
  destruct Hsm as [Hnd Hwf].
  destruct (inactive_sessions_spec (objects sm) now timeout_minutes
              (active_sessions sm) Hwf) as (ids & Hids & Hin).
  unfold cleanup_inactive_sessions in *. rewrite Hids in *.
  cbn [fst objects active_sessions] in *. split.
  - unfold get_all_sessions, dict_values. cbn [active_sessions].
    apply fmap_sublist, dict_del_all_sublist.
  - destruct (inactive_sessions_spec (objects sm) now timeout_minutes _ Hwf1)
      as (ids' & Hids' & Hin').
    rewrite Hids'. destruct ids' as [|k ids']; [done|]. exfalso.
    destruct (Hin' k) as [Hidle _].
    destruct Hidle as (l & s & t & Hkl & Hs & Ht & Hlate); [left|].
    pose proof (dict_get_elem _ _ _ Hnd1 Hkl) as Hget.
    rewrite dict_get_del_all in Hget.
    destruct (decide (k ∈ ids)) as [|Hk]; [done|].
    apply Hk, Hin. exists l, s, t. split; [|done].
    by eapply dict_del_all_elem.
Qed.

Lemma cleanup_inactive_sessions_idempotent_witness :
  cleanup_inactive_sessions 1860001000 30
    (cleanup_inactive_sessions 1860001000 30 Example.one_session).1
  = ((cleanup_inactive_sessions 1860001000 30 Example.one_session).1,
     Return VNone).
Proof.
  apply (cleanup_inactive_sessions_idempotent 1860001000 30
           Example.one_session one_session_well_formed).
Defined.

Lemma update_session_record `{Runtime} now sid k kwargs sm s :
  dict_key sid = Some k → binds_parameter kwargs = false → plain kwargs →
  record_of sm k = Some s →
  (update_session now sid kwargs sm).2 = Return true ∧
  record_of (update_session now sid kwargs sm).1 k
  = Some (set_field Flast_activity (VDatetime now) (apply_fields kwargs s)).
Proof.
  intros Hk Hb Hplain Hrec. unfold update_session. rewrite Hb, Hk.
  unfold record_of in *.
  destruct (dict_get k (active_sessions sm)) as [l|] eqn:Hl; [|done].
  simpl in Hrec. rewrite Hrec, (update_attrs_plain _ _ Hplain).
  split; [done|]. cbn [fst active_sessions objects]. rewrite Hl. simpl.
  apply list_lookup_insert_eq. by eapply lookup_lt_Some.
Qed.

(** Touching a session keeps it alive. A session registered or updated at
    the clock reading [now] is still in the registry, as the registration
    or the update left it, after a sweep made at a reading [now'] that is
    at most [timeout_minutes] later. *)
Theorem touched_session_survives `{Runtime} (now now' timeout_minutes : Z)
    (sid : pyval) (k : key) (sm : SessionManager) :
  well_formed sm → dict_key sid = Some k →
  (now' - now ≤ timeout_minutes * 60000000)%Z →
  (∀ uid, dict_get k (active_sessions sm) = None →
     record_of
       (cleanup_inactive_sessions now' timeout_minutes
          (register_session now sid uid sm).1).1 k
     = record_of (register_session now sid uid sm).1 k ∧
     is_Some (record_of (register_session now sid uid sm).1 k)) ∧
  (∀ kwargs s, binds_parameter kwargs = false → plain kwargs →
     record_of sm k = Some s →
     record_of
       (cleanup_inactive_sessions now' timeout_minutes
          (update_session now sid kwargs sm).1).1 k
     = Some (set_field Flast_activity (VDatetime now)
               (apply_fields kwargs s))).
Proof.
  intros Hwf Hk Hsoon. split.
  - intros uid Hfree.
    destruct (register_session_fresh now sid uid k sm Hk Hfree)
      as (sm' & Hreg & Hrec).
    rewrite Hreg. cbn [fst]. rewrite Hrec. split; [|by eexists].
    eapply (cleanup_retains now' timeout_minutes sm' k _ now);
      [|done|done|done].
    replace sm' with (register_session now sid uid sm).1
      by (by rewrite Hreg).
    by apply register_session_well_formed.
  - intros kwargs s Hb Hplain Hrec.
    destruct (update_session_record now sid k kwargs sm s Hk Hb Hplain Hrec)
      as [_ Hrec'].
    eapply (cleanup_retains now' timeout_minutes _ k _ now);
      [|done|done|done].
    by apply update_session_well_formed.
Qed.

Lemma touched_session_survives_witness :
  record_of
    (cleanup_inactive_sessions 3600000000 30
       (update_session 1800000001 (VStr "s1") [("status", VStr "idle")]
          Example.one_session).1).1 (KStr "s1")
  = Some (set_field Flast_activity (VDatetime 1800000001)
            (set_field Fstatus (VStr "idle") Example.s1)).
Proof.
  destruct (touched_session_survives 1800000001 3600000000 30 (VStr "s1")
              (KStr "s1") Example.one_session one_session_well_formed
              eq_refl) as [_ Hupd]; [lia|].
  apply (Hupd [("status", VStr "idle")] Example.s1); [done| |done].
  repeat constructor.
Defined.

(** One session whose [last_activity] is no datetime stops every sweep:
    the sweep raises a TypeError and removes no session at all, however
    long the others have been idle. *)
Theorem cleanup_inactive_sessions_blocked (now timeout_minutes : Z)
    (sm : SessionManager) (k : key) (l : loc) (s : Session) :
  (∀ k' l', (k', l') ∈ active_sessions sm → is_Some (objects sm !! l')) →
  (k, l) ∈ active_sessions sm → objects sm !! l = Some s →
  (∀ t, last_activity s ≠ VDatetime t) →
  cleanup_inactive_sessions now timeout_minutes sm
  = (sm, Raise unsupported_operand).
Proof.
  intros Hrefs Hin Hs Hbad. unfold cleanup_inactive_sessions.
  by rewrite (inactive_sessions_blocked _ _ _ _ k l s).
Qed.

Lemma cleanup_inactive_sessions_blocked_witness :
  cleanup_inactive_sessions 9000000000 30
    (update_session 2000 (VStr "s1")
       [("last_activity", VInt 5); ("__class__", VInt 1)]
       Example.one_session).1
  = ((update_session 2000 (VStr "s1")
        [("last_activity", VInt 5); ("__class__", VInt 1)]
        Example.one_session).1,
     Raise unsupported_operand).
Proof.
  apply (cleanup_inactive_sessions_blocked 9000000000 30 _ (KStr "s1") 0%nat
           (set_field Flast_activity (VInt 5) Example.s1)).
  - intros k' l' [[= -> ->]|Hin%elem_of_nil]%elem_of_cons; [|done].
    by eexists.
  - left.
  - reflexivity.
  - intros t. discriminate.
Defined.

(** ** The hub: what a handler does to the connections *)

Section Replies.
Context `{Runtime}.

Lemma send_json_spec websocket v (st : hub) :
  ∃ frames,
    replied websocket frames st (send_json websocket v st).1 ∧
    session_manager (send_json websocket v st).1.1 = session_manager st.1 ∧
    (((send_json websocket v st).2 = Return tt ∧
      frames = [json_dumps v] ∧ websocket ∉ closed st.2) ∨
     (frames = [] ∧
      (((send_json websocket v st).2 = Raise ConnectionClosed ∧
        websocket ∈ closed st.2) ∨
       (serializable v = false ∧
        ∃ m, (send_json websocket v st).2 = Raise (TypeError m))))).
Proof.
  unfold send_json, dumps, send, replied.
  destruct (serializable v) eqn:Hser.
  - destruct (decide (websocket ∈ closed st.2)) as [Hc|Hc].
    + rewrite bool_decide_eq_true_2 by done. exists []. simpl.
      rewrite app_nil_r. split; [done|]. split; [done|]. right. by eauto.
    + rewrite bool_decide_eq_false_2 by done. exists [json_dumps v]. simpl.
      split; [done|]. split; [done|]. by left.
  - exists []. simpl. rewrite app_nil_r. split; [done|]. split; [done|].
    right. split; [done|]. right. by eauto.
Qed.

Lemma handle_command_spec now websocket message (st : hub) :
  ∃ frames,
    replied websocket frames st (handle_command now websocket message st).1 ∧
    (length frames ≤ 1)%nat ∧
    (∀ e, (handle_command now websocket message st).2 = Raise e →
       frames = []).
Proof.
  assert (Hquiet : ∀ (sm : SessionManager) (r : outcome unit),
    ∃ frames,
      replied websocket frames st ((with_manager st.1 sm, st.2), r).1 ∧
      (length frames ≤ 1)%nat ∧
      (∀ e, ((with_manager st.1 sm, st.2), r).2 = Raise e → frames = [])).
  { intros sm r. exists []. unfold replied. simpl. rewrite app_nil_r.
    repeat split; (done || lia). }
  assert (Hsame : ∀ r : outcome unit,
    ∃ frames, replied websocket frames st (st, r).1 ∧
      (length frames ≤ 1)%nat ∧ (∀ e, (st, r).2 = Raise e → frames = [])).
  { intros r. exists []. unfold replied. simpl. rewrite app_nil_r.
    repeat split; (done || lia). }
  assert (Hsend : ∀ v (st0 : hub),
    clients st0.1 = clients st.1 → st0.2 = st.2 →
    ∃ frames,
      replied websocket frames st (send_json websocket v st0).1 ∧
      (length frames ≤ 1)%nat ∧
      (∀ e, (send_json websocket v st0).2 = Raise e → frames = [])).
  { intros v st0 Hcl Hnet.
    destruct (send_json_spec websocket v st0)
      as (frames & (Hc & Hcl' & Hd) & _ & Hcases).
    exists frames. unfold replied. rewrite Hc, Hcl', Hd, Hcl, Hnet.
    split; [done|].
    destruct Hcases as [(Hr & -> & _)|(-> & _)].
    - split; [simpl; lia|]. intros e. by rewrite Hr.
    - split; [simpl; lia|done]. }
  unfold handle_command.
  destruct (json_loads message) as [[| | | | |?|data|]|];
    try (by apply Hsame).
  destruct (is_str (py_get data "command") "register_session").
  { destruct (register_session now _ _ _) as [sm [success|e]].
    - by apply Hsend.
    - apply Hquiet. }
  destruct (is_str (py_get data "command") "update_session").
  { destruct (default (VDict []) (dict_get "updates" data))
      as [| | | | | |updates|]; try (by apply Hsame).
    destruct (update_session now _ _ _) as [sm [success|e]].
    - by apply Hsend.
    - apply Hquiet. }
  destruct (is_str (py_get data "command") "get_sessions").
  { destruct (session_data _ _) as [entries|e]; [|by apply Hsame].
    by apply Hsend. }
  apply Hsame.
Qed.
End Replies.

Lemma handle_message_frames `{Runtime} (now : Z) (websocket : client)
    (message : string) (st : hub) :
  ∃ frames,
    replied websocket frames st (handle_message now websocket message st).1 ∧
    (length frames ≤ 1)%nat ∧
    ((handle_message now websocket message st).2 = Return tt ∨
     ((handle_message now websocket message st).2 = Raise ConnectionClosed ∧
      websocket ∈ closed st.2 ∧ frames = [])).
Proof.
  destruct (handle_command_spec now websocket message st)
    as (frames & Hrep & Hlen & Hraise).
  unfold handle_message.
  destruct (handle_command now websocket message st) as [st' [[]|e]].
  - exists frames. split; [done|]. split; [done|]. by left.
  - rewrite (Hraise e eq_refl) in Hrep.
    destruct Hrep as (Hcl & Hclosed & Hd). simpl in Hcl, Hclosed, Hd.
    rewrite app_nil_r in Hd.
    assert (Hreply : ∀ text, ∃ frames,
      replied websocket frames st
        (send_json websocket (error_reply text) st').1 ∧
      (length frames ≤ 1)%nat ∧
      ((send_json websocket (error_reply text) st').2 = Return tt ∨
       ((send_json websocket (error_reply text) st').2
        = Raise ConnectionClosed ∧
        websocket ∈ closed st.2 ∧ frames = []))).
    { intros text.
      destruct (send_json_spec websocket (error_reply text) st')
        as (fs & (Hc1 & Hc2 & Hd1) & _ & Hcases).
      exists fs. unfold replied. rewrite Hc1, Hc2, Hd1, Hcl, Hclosed, Hd.
      split; [done|].
      destruct Hcases as [(Hr & -> & _)|(-> & [[Hr Hc]|[Hser _]])].
      - split; [simpl; lia|by left].
      - split; [simpl; lia|]. right. by rewrite <- Hclosed.
      - done. }
    destruct e; apply Hreply.
Qed.


(** ** The connection handler *)

Lemma filter_all_elem {A} (P : A → Prop) `{∀ x, Decision (P x)} (l : list A) :
  (∀ x, x ∈ l → P x) → filter P l = l.
Proof.
  induction l as [|x l IH]; intros HP; [done|].
  rewrite filter_cons_True by (apply HP; left).
  rewrite IH; [done|]. intros y Hy. apply HP. by right.
Qed.

Section Handler.
Context `{Runtime}.

Lemma replied_trans websocket frames1 frames2 (st1 st2 st3 : hub) :
  replied websocket frames1 st1 st2 → replied websocket frames2 st2 st3 →
  replied websocket (frames1 ++ frames2) st1 st3.
Proof.
  intros (Hc1 & Hcl1 & Hd1) (Hc2 & Hcl2 & Hd2). unfold replied.
  rewrite Hc2, Hc1, Hcl2, Hcl1, Hd2, Hd1, fmap_app, app_assoc. done.
Qed.

Lemma serve_spec websocket incoming (st : hub) :
  ∃ frames,
    replied websocket frames st (serve websocket incoming st).1 ∧
    (length frames ≤ length incoming)%nat ∧
    ((serve websocket incoming st).2 = Return tt ∨
     (serve websocket incoming st).2 = Raise ConnectionClosed).
Proof.
  revert st. induction incoming as [|[now message] incoming IH]; intros st.
  - exists []. unfold replied. simpl. rewrite app_nil_r.
    split; [done|]. split; [lia|by left].
  - destruct (handle_message_frames now websocket message st)
      as (frames1 & Hrep1 & Hlen1 & Hcases).
    cbn [serve].
    destruct (handle_message now websocket message st) as [st1 [[]|e]].
    + destruct (IH st1) as (frames2 & Hrep2 & Hlen2 & Hcases2).
      exists (frames1 ++ frames2)%list.
      split; [by eapply replied_trans|]. rewrite length_app. simpl.
      split; [lia|done].
    + exists frames1. split; [done|]. split; [simpl; lia|].
      destruct Hcases as [?|(? & _)]; [done|by right].
Qed.

Lemma broadcast_update_run message (st : hub) :
  serializable message = true →
  ∃ srv' net',
    broadcast_update message st = ((srv', net'), Return tt) ∧
    session_manager srv' = session_manager st.1 ∧
    clients srv' = filter (λ c, c ∉ closed st.2) (clients st.1) ∧
    closed net' = closed st.2 ∧
    delivered net'
    = (delivered st.2
       ++ ((λ c, (c, json_dumps message))
             <$> filter (λ c, c ∉ closed st.2) (clients st.1)))%list.
Proof.
  intros Hser. unfold broadcast_update, dumps. rewrite Hser.
  destruct (clients st.1) as [|c0 cs] eqn:Hcs.
  - exists st.1, st.2. rewrite <- surjective_pairing.
    repeat split; try done. by rewrite filter_nil, fmap_nil, app_nil_r.
  - destruct (broadcast_loop_spec (json_dumps message) (c0 :: cs) [] st.2)
      as (net' & disc' & Hrun & Hclosed & Hsent & Hdisc).
    rewrite Hrun. eexists _, net'. split; [reflexivity|].
    cbn [session_manager clients].
    split; [done|]. split; [by apply filter_connected|]. done.
Qed.
End Handler.

(** The handler of a new connection, in a hub where nothing else happens
    meanwhile, always comes to its end without an exception, however the
    stream of messages ends: while it runs the client is in the set, when
    it ends the set of clients is what it was before; it has sent at most
    one frame for each message, all to its own client. *)
Theorem register_client_spec `{Runtime} (websocket : client)
    (incoming : list (Z * string)) (aborted : bool) (st : hub) :
  websocket ∉ clients st.1 →
  ∃ st' frames,
    register_client websocket incoming aborted st
    = (st', Handled (Return tt)) ∧
    replied websocket frames st st' ∧
    (length frames ≤ length incoming)%nat ∧
    websocket ∈ clients (add_client websocket st).1.
Proof.
  intros Hnew. unfold register_client.
  destruct (serve_spec websocket incoming (add_client websocket st))
    as (frames & (Hcl & Hclosed & Hd) & Hlen & Hcases).
  destruct (serve websocket incoming (add_client websocket st))
    as [st1 r] eqn:Hserve.
  simpl in Hcl, Hclosed, Hd, Hcases.
  rewrite bool_decide_eq_false_2 in Hcl by done.
  assert (Hin : websocket ∈ clients st1.1)
    by (rewrite Hcl; apply elem_of_app; right; left).
  unfold remove_client. rewrite bool_decide_eq_true_2 by done.
  eexists _, frames. split.
  - f_equal. destruct Hcases as [->| ->]; [by destruct aborted|done].
  - split; [|split; [done|]].
    + unfold replied. cbn [fst snd with_clients clients].
      rewrite Hcl, Hclosed, Hd. split; [|done].
      rewrite filter_app, filter_cons_False, filter_nil, app_nil_r
        by (intros Hne; by apply Hne).
      apply filter_all_elem. intros c Hc ->. done.
    + simpl. rewrite bool_decide_eq_false_2 by done.
      apply elem_of_app. right. left.
Qed.

Lemma register_client_spec_witness :
  ∃ st' frames,
    register_client 8%nat
      [(1000, "register s1 u1"); (2000, Example.malformed); (3000, "get")]
      true Example.fresh_hub
    = (st', Handled (Return tt)) ∧
    replied 8%nat frames Example.fresh_hub st' ∧
    (length frames ≤ 3)%nat.
Proof.
  destruct (register_client_spec 8%nat
              [(1000, "register s1 u1"); (2000, Example.malformed);
               (3000, "get")] true Example.fresh_hub)
    as (st' & frames & Hrun & Hrep & Hlen & _).
  - intros [[=]|Hin%elem_of_nil]%elem_of_cons. done.
  - by exists st', frames.
Defined.

(** When a broadcast has found the socket of a client closed, it has taken
    the client out of the set; the [finally] clause of that client's
    handler, which removes it once more, then raises KeyError. *)
Theorem remove_client_after_broadcast `{Runtime} (message : pyval)
    (websocket : client) (r : outcome unit) (st : hub) :
  serializable message = true →
  websocket ∈ clients st.1 → websocket ∈ closed st.2 →
  (websocket ∉ clients (broadcast_update message st).1.1) ∧
  remove_client websocket r (broadcast_update message st).1
  = ((broadcast_update message st).1, KeyError).
Proof.
  intros Hser Hin Hclosed.
  destruct (broadcast_update_run message st Hser)
    as (srv' & net' & Hrun & _ & Hclients & _).
  rewrite Hrun. cbn [fst].
  assert (Hgone : websocket ∉ clients srv').
  { rewrite Hclients. intros [Hopen _]%list_elem_of_filter. done. }
  split; [done|]. unfold remove_client. cbn [fst].
  by rewrite bool_decide_eq_false_2.
Qed.

Lemma remove_client_after_broadcast_witness :
  remove_client 3%nat (Return tt)
    (broadcast_update (Example.sessions_cleaned 5000)
       Example.four_clients).1
  = ((broadcast_update (Example.sessions_cleaned 5000)
        Example.four_clients).1, KeyError).
Proof.
  apply (remove_client_after_broadcast (Example.sessions_cleaned 5000) 3%nat
           (Return tt) Example.four_clients eq_refl).
  - right. right. left.
  - left.
Defined.

(** ** The periodic sweep *)

(** One turn of the periodic task, on a well-formed registry, when no
    other task runs during the broadcast: the sessions idle for more than
    30 minutes are removed, the sessions idle for 30 minutes or less stay
    as they are, and the event [sessions_cleaned] is sent to every client
    whose socket is open, whether or not any session was removed; the
    clients whose socket is closed are dropped. *)
Theorem cleanup_sessions_spec `{Runtime} (now now' : Z) (st : hub) :
  well_formed (session_manager st.1) →
  ∃ srv' net',
    cleanup_sessions now now' st = ((srv', net'), Return tt) ∧
    objects (session_manager srv') = objects (session_manager st.1) ∧
    (∀ k s t, record_of (session_manager st.1) k = Some s →
       last_activity s = VDatetime t →
       (1800000000 < now - t → record_of (session_manager srv') k = None) ∧
       ((now - t ≤ 1800000000)%Z →
        record_of (session_manager srv') k = Some s)) ∧
    (∀ k, record_of (session_manager st.1) k = None →
       record_of (session_manager srv') k = None) ∧
    clients srv' = filter (λ c, c ∉ closed st.2) (clients st.1) ∧
    closed net' = closed st.2 ∧
    delivered net'
    = (delivered st.2
       ++ ((λ c, (c, json_dumps (sessions_cleaned now')))
             <$> filter (λ c, c ∉ closed st.2) (clients st.1)))%list.
Proof.
  intros Hwf. unfold cleanup_sessions.
  destruct (cleanup_inactive_sessions_run now 30 (session_manager st.1) Hwf)
    as (sm' & Hsweep & Hobjs & Hidle & Hfresh & Hnone).
  rewrite Hsweep.
  destruct (broadcast_update_run (sessions_cleaned now')
              (with_manager st.1 sm', st.2) eq_refl)
    as (srv' & net' & Hrun & Hsm & Hclients & Hclosed & Hsent).
  cbn [fst snd with_manager session_manager clients] in Hsm, Hclients,
    Hclosed, Hsent.
  exists srv', net'. rewrite Hsm.
  split; [done|]. split; [done|]. split; [|done].
  intros k s t Hrec Ht. split.
  - intros Hage. apply (Hidle k s t); [done..|].
    apply time_diff_idle; [done|lia].
  - intros Hage. apply (Hfresh k s t); [done..|].
    apply time_diff_fresh. lia.
Qed.

Lemma cleanup_sessions_spec_witness :
  ∃ srv' net',
    cleanup_sessions 1860001000 1860001001 Example.four_clients
    = ((srv', net'), Return tt) ∧
    record_of (session_manager srv') (KStr "s1") = None ∧
    clients srv' = [1; 2; 4]%nat ∧
    delivered net'
    = [(1%nat, json_dumps (sessions_cleaned 1860001001));
       (2%nat, json_dumps (sessions_cleaned 1860001001));
       (4%nat, json_dumps (sessions_cleaned 1860001001))].
Proof.
  destruct (cleanup_sessions_spec 1860001000 1860001001 Example.four_clients
              one_session_well_formed)
    as (srv' & net' & Hrun & _ & Hrec & _ & Hclients & _ & Hsent).
  exists srv', net'. split; [exact Hrun|]. split; [|split].
  - destruct (Hrec (KStr "s1") Example.s1 1000 eq_refl eq_refl)
      as [Hidle _].
    apply Hidle. reflexivity.
  - rewrite Hclients. reflexivity.
  - rewrite Hsent. reflexivity.
Defined.

(** ** The hub: payloads that are turned down *)

(** Each of these payloads, from a client whose socket is open, is
    answered with one [error] frame, sent to the client it came from, and
    leaves the hub as it was, the registry included: a text that is no
    JSON (the frame says "Invalid JSON format"); a JSON value that is no
    object; a register or update command whose [session_id] cannot be a
    dictionary key (a list, an object); an update command whose [updates]
    names [session_id] or [self]; an update command whose [updates] is no
    object. An update command without [updates] is one with the empty
    mapping. *)
Theorem handle_message_rejects `{Runtime} (now : Z) (websocket : client)
    (message : string) (st : hub) :
  websocket ∉ closed st.2 →
  (json_loads message = None →
   handle_message now websocket message st
   = answered websocket (error_reply "Invalid JSON format") st) ∧
  (∀ v, json_loads message = Some v → (∀ data, v ≠ VDict data) →
   ∃ text, handle_message now websocket message st
           = answered websocket (error_reply text) st) ∧
  (∀ data, json_loads message = Some (VDict data) →
   is_str (py_get data "command") "register_session" = true →
   dict_key (py_get data "session_id") = None →
   ∃ text, handle_message now websocket message st
           = answered websocket (error_reply text) st) ∧
  (∀ data updates, json_loads message = Some (VDict data) →
   is_str (py_get data "command") "update_session" = true →
   default (VDict []) (dict_get "updates" data) = VDict updates →
   binds_parameter updates = true ∨
   dict_key (py_get data "session_id") = None →
   ∃ text, handle_message now websocket message st
           = answered websocket (error_reply text) st) ∧
  (∀ data, json_loads message = Some (VDict data) →
   is_str (py_get data "command") "update_session" = true →
   (∀ updates,
      default (VDict []) (dict_get "updates" data) ≠ VDict updates) →
   ∃ text, handle_message now websocket message st
           = answered websocket (error_reply text) st).
Proof.
  intros Hopen. destruct st as [[sm p cs] net]. simpl in Hopen.
  assert (Hupdate : ∀ c, is_str c "update_session" = true →
            is_str c "register_session" = false).
  { intros [| | | |c| | |]; try done. simpl.
    intros ->%String.eqb_eq. done. }
  assert (Hsend : ∀ text,
    send_json websocket (error_reply text)
      ({| session_manager := sm; port := p; clients := cs |}, net)
    = answered websocket (error_reply text)
        ({| session_manager := sm; port := p; clients := cs |}, net)).
  { intros text. by rewrite send_json_open. }
  unfold handle_message, handle_command.
  split; [|split; [|split; [|split]]].
  - intros ->. apply Hsend.
  - intros v -> Hv. destruct v; try (eexists; apply Hsend).
    by destruct (Hv d).
  - intros data -> -> Hk. unfold register_session. rewrite Hk.
    cbn [fst snd with_manager session_manager port clients].
    eexists. apply Hsend.
  - intros data updates -> Hcmd Hupd Hbad.
    rewrite (Hupdate _ Hcmd), Hcmd, Hupd.
    unfold update_session.
    cbn [fst snd with_manager session_manager port clients].
    destruct (binds_parameter updates) eqn:Hb.
    + eexists. apply Hsend.
    + destruct Hbad as [?|Hk]; [done|]. rewrite Hk.
      eexists. apply Hsend.
  - intros data -> Hcmd Hupd.
    rewrite (Hupdate _ Hcmd), Hcmd.
    destruct (default (VDict []) (dict_get "updates" data));
      try (eexists; apply Hsend).
    by destruct (Hupd d).
Qed.

Lemma handle_message_rejects_witness :
  handle_message 1000 7%nat Example.malformed Example.fresh_hub
  = answered 7%nat (error_reply "Invalid JSON format") Example.fresh_hub ∧
  ∃ text, handle_message 1000 7%nat "[1]" Example.fresh_hub
          = answered 7%nat (error_reply text) Example.fresh_hub.
Proof.
  destruct (handle_message_rejects 1000 7%nat Example.malformed
              Example.fresh_hub) as (Hbad & _); [apply not_elem_of_nil|].
  destruct (handle_message_rejects 1000 7%nat "[1]" Example.fresh_hub)
    as (_ & Hlist & _); [apply not_elem_of_nil|].
  split; [by apply Hbad|]. by apply (Hlist (VList [VInt 1])).
Defined.

(** ** The hub: updates and listings *)

Section Commands.
Context `{Runtime}.

Lemma is_str_update c :
  is_str c "update_session" = true → is_str c "register_session" = false.
Proof.
  destruct c; try done. simpl. by intros ->%String.eqb_eq.
Qed.

Lemma is_str_get c :
  is_str c "get_sessions" = true →
  is_str c "register_session" = false ∧ is_str c "update_session" = false.
Proof.
  destruct c; try done. simpl. by intros ->%String.eqb_eq.
Qed.

Lemma session_data_spec objs (items : list (key * loc)) :
  (∀ k l, (k, l) ∈ items →
     ∃ s t, objs !! l = Some s ∧ last_activity s = VDatetime t) →
  (∀ k l s, (k, l) ∈ items → objs !! l = Some s → presentable s) →
  ∃ entries,
    session_data objs items.*2 = Return entries ∧
    serializable (VList entries) = true ∧
    Forall2 (λ p entry, ∃ s, objs !! p.2 = Some s ∧
                          session_entry s = Return entry) items entries.
Proof.
  induction items as [|[k l] items IH]; intros Hwf Hpres.
  - exists []. by repeat split.
  - destruct IH as (entries & Hrun & Hser & Hall).
    { intros k' l' Hin. apply (Hwf k' l'). by right. }
    { intros k' l' s Hin. apply (Hpres k' l'). by right. }
    destruct (Hwf k l) as (s & t & Hs & Ht); [left|].
    destruct (Hpres k l s) as (H1 & H2 & H3 & H4 & H5 & H6); [left|done|].
    rewrite fmap_cons. cbn [session_data snd]. rewrite Hs.
    unfold session_entry at 1. rewrite Ht, Hrun.
    eexists. split; [reflexivity|]. split.
    + simpl. simpl in Hser. by rewrite H1, H2, H3, H4, H5, H6, Hser.
    + constructor; [|done]. exists s. split; [done|].
      unfold session_entry. by rewrite Ht.
Qed.
End Commands.

(** An update command for a hashable id, whose [updates] (an empty
    mapping, when the payload has none) name neither a parameter of the
    method nor an inherited attribute: when the id is registered, the
    fields are written, [last_activity] is refreshed, and the sender is
    told of the success; when it is not, no record is made, the hub is as
    it was, and the sender is told of the failure. *)
Theorem handle_message_update `{Runtime} (now : Z) (websocket : client)
    (message : string) (data updates : list (string * pyval)) (k : key)
    (st : hub) :
  json_loads message = Some (VDict data) →
  is_str (py_get data "command") "update_session" = true →
  default (VDict []) (dict_get "updates" data) = VDict updates →
  binds_parameter updates = false → plain updates →
  dict_key (py_get data "session_id") = Some k →
  serializable (py_get data "session_id") = true →
  websocket ∉ closed st.2 →
  (∀ s, record_of (session_manager st.1) k = Some s →
   ∃ st1,
     handle_message now websocket message st = (st1, Return tt) ∧
     record_of (session_manager st1.1) k
     = Some (set_field Flast_activity (VDatetime now)
               (apply_fields updates s)) ∧
     delivered st1.2
     = (delivered st.2
        ++ [(websocket,
             json_dumps (VDict [("type", VStr "update_response");
                                ("success", VBool true);
                                ("session_id", py_get data "session_id")]))]
       )%list) ∧
  (dict_get k (active_sessions (session_manager st.1)) = None →
   handle_message now websocket message st
   = answered websocket
       (VDict [("type", VStr "update_response");
               ("success", VBool false);
               ("session_id", py_get data "session_id")]) st).
Proof.
  intros Hparse Hcmd Hupd Hb Hplain Hk Hser Hopen.
  unfold handle_message, handle_command.
  rewrite Hparse, (is_str_update _ Hcmd), Hcmd, Hupd. split.
  - intros s Hrec.
    destruct (update_session_record now _ k updates _ s Hk Hb Hplain Hrec)
      as [Hret Hrec'].
    destruct (update_session now (py_get data "session_id") updates
                (session_manager st.1)) as [sm' r].
    simpl in Hret, Hrec'. subst r.
    rewrite send_json_open; [|done|by simpl; rewrite Hser].
    eexists. split; [reflexivity|]. by split.
  - intros Hfree. unfold update_session. rewrite Hb, Hk, Hfree.
    destruct st as [[sm p cs] net].
    by rewrite send_json_open; [|done|by simpl; rewrite Hser].
Qed.

Lemma handle_message_update_witness :
  ∃ st1,
    handle_message 2000 1%nat "update s1 progress" Example.four_clients
    = (st1, Return tt) ∧
    record_of (session_manager st1.1) (KStr "s1")
    = Some (set_field Flast_activity (VDatetime 2000)
              (set_field Fprogress (VFloat (1 # 2)) Example.s1)).
Proof.
  destruct (handle_message_update 2000 1%nat "update s1 progress"
              [("command", VStr "update_session");
               ("session_id", VStr "s1");
               ("updates", VDict [("progress", VFloat (1 # 2))])]
              [("progress", VFloat (1 # 2))] (KStr "s1")
              Example.four_clients) as [Hknown _]; try reflexivity.
  - repeat constructor.
  - intros [[=]|Hin%elem_of_nil]%elem_of_cons. done.
  - destruct (Hknown Example.s1 eq_refl) as (st1 & Hrun & Hrec & _).
    by exists st1.
Defined.

(** A [get_sessions] command, when the registry is well formed and its
    sessions hold values that can be written as JSON: the sender, and
    nobody else, receives one [sessions_data] frame with one entry for
    each session, in the order of registration; the hub is otherwise as it
    was. *)
Theorem handle_message_get_sessions `{Runtime} (now : Z) (websocket : client)
    (message : string) (data : list (string * pyval)) (st : hub) :
  json_loads message = Some (VDict data) →
  is_str (py_get data "command") "get_sessions" = true →
  well_formed (session_manager st.1) →
  (∀ k s, record_of (session_manager st.1) k = Some s → presentable s) →
  websocket ∉ closed st.2 →
  ∃ entries,
    handle_message now websocket message st
    = answered websocket
        (VDict [("type", VStr "sessions_data"); ("sessions", VList entries)])
        st ∧
    Forall2 (λ l entry, ∃ s, objects (session_manager st.1) !! l = Some s ∧
                          session_entry s = Return entry)
      (get_all_sessions (session_manager st.1)) entries.
Proof.
  intros Hparse Hcmd [Hnd Hwf] Hpres Hopen.
  destruct (is_str_get _ Hcmd) as [Hreg Hupd].
  destruct (session_data_spec (objects (session_manager st.1))
              (active_sessions (session_manager st.1)) Hwf)
    as (entries & Hrun & Hser & Hall).
  { intros k l s Hkl Hs. apply (Hpres k). unfold record_of.
    by rewrite (dict_get_elem _ _ _ Hnd Hkl). }
  exists entries. split.
  - unfold handle_message, handle_command.
    rewrite Hparse, Hreg, Hupd, Hcmd.
    unfold get_all_sessions, dict_values. rewrite Hrun.
    destruct st as [[sm p cs] net].
    rewrite send_json_open; [done|done|].
    simpl in Hser. simpl. by rewrite Hser.
  - unfold get_all_sessions, dict_values. by apply Forall2_fmap_l.
Qed.

Lemma handle_message_get_sessions_witness :
  handle_message 2000 1%nat "get" Example.four_clients
  = answered 1%nat
      (VDict [("type", VStr "sessions_data");
              ("sessions",
               VList [VDict [("session_id", VStr "s1");
                             ("user_id", VStr "u1");
                             ("status", VStr "active");
                             ("current_task", VStr "initializing");
                             ("progress", VFloat 0);
                             ("last_activity", VStr (isoformat 1000));
                             ("resources_used", VDict [])]])])
      Example.four_clients.
Proof.
  destruct (handle_message_get_sessions 2000 1%nat "get"
              [("command", VStr "get_sessions")] Example.four_clients)
    as (entries & Hrun & Hall);
    [reflexivity | reflexivity | apply one_session_well_formed | | |].
  - intros k s (l & Hkl & Hs)%record_of_elem.
    apply elem_of_cons in Hkl as [[= -> ->]|Hkl%elem_of_nil]; [|done].
    injection Hs as <-. by repeat split.
  - intros [[=]|Hin%elem_of_nil]%elem_of_cons. done.
  - rewrite Hrun.
    apply Forall2_cons_inv_l in Hall
      as (entry & rest & (s & Hs & Hentry) & ->%Forall2_nil_inv_l & ->).
    injection Hs as <-. by injection Hentry as <-.
Defined.

(** A register command from a client whose socket is closed: the session
    is registered all the same, nothing is sent, and the handler raises
    ConnectionClosed. *)
Theorem handle_message_register_closed `{Runtime} (now : Z)
    (websocket : client) (message : string) (data : list (string * pyval))
    (k : key) (st : hub) :
  json_loads message = Some (VDict data) →
  is_str (py_get data "command") "register_session" = true →
  dict_key (py_get data "session_id") = Some k →
  serializable (py_get data "session_id") = true →
  dict_get k (active_sessions (session_manager st.1)) = None →
  websocket ∈ closed st.2 →
  ∃ st1,
    handle_message now websocket message st = (st1, Raise ConnectionClosed) ∧
    st1.2 = st.2 ∧
    record_of (session_manager st1.1) k
    = Some {| session_id := py_get data "session_id";
              user_id := py_get data "user_id";
              status := VStr "active";
              current_task := VStr "initializing";
              progress := VFloat 0;
              last_activity := VDatetime now;
              resources_used := VDict [] |}.
Proof.
  intros Hparse Hcmd Hk Hser Hfree Hclosed.
  destruct (register_session_fresh now (py_get data "session_id")
              (py_get data "user_id") k (session_manager st.1) Hk Hfree)
    as (sm' & Hreg & Hrec).
  unfold handle_message, handle_command. rewrite Hparse, Hcmd, Hreg.
  unfold send_json, dumps, send. simpl. rewrite Hser. simpl.
  rewrite !bool_decide_eq_true_2 by done. simpl.
  eexists. split; [reflexivity|]. by split.
Qed.

Lemma handle_message_register_closed_witness :
  ∃ st1,
    handle_message 2000 3%nat "register" Example.four_clients
    = (st1, Raise ConnectionClosed) ∧
    is_Some (record_of (session_manager st1.1) KNone).
Proof.
  destruct (handle_message_register_closed 2000 3%nat "register"
              [("command", VStr "register_session")] KNone
              Example.four_clients) as (st1 & Hrun & _ & Hrec);
    try reflexivity.
  - left.
  - exists st1. split; [exact Hrun|]. by rewrite Hrec.
Defined.

(** ** The durability layer: what a save writes *)

Section Saves.
Context `{Runtime}.


End Saves.





(** ** The durability layer: rows and sessions that cannot be handled *)

Section BadRows.
Context `{Runtime}.

Lemma load_rows_raise rows r e :
  r ∈ rows → load_row r = Raise e → ∃ e', load_rows rows = Raise e'.
Proof.
  induction rows as [|r0 rows IH]; [by intros ?%elem_of_nil|].
  intros [->|Hin]%elem_of_cons Hr; simpl.
  - rewrite Hr. by eexists.
  - destruct (load_row r0); simpl; [|by eexists].
    destruct (IH Hin Hr) as [e' ->]. by eexists.
Qed.

End BadRows.

(** One row whose [last_activity] is not the text of a timestamp makes
    the whole load fail: [load_sessions] raises, no session is returned,
    and the start-up passes the exception on with the registry untouched. *)
Theorem load_sessions_corrupt_row `{Runtime} (db : Storage) (r : row)
    (sm : SessionManager) :
  sqlite3_available db = true → database_fault db = false →
  r ∈ sessions_table db →
  (∀ ts t, c_last_activity r = SText ts → fromisoformat ts ≠ Some t) →
  ∃ e, load_sessions db = Raise e ∧
    start_orchestration db sm = (sm, Raise e).
Proof.
  intros Hav Hok Hr Hbad.
  assert (Hrow : ∃ e, load_row r = Raise e).
  { unfold load_row.
    destruct (c_last_activity r) as [| | |ts] eqn:Hts; simpl;
      try by eexists.
    destruct (fromisoformat ts) as [t|] eqn:Ht; simpl; [|by eexists].
    by destruct (Hbad ts t). }
  destruct Hrow as [e0 Hrow].
  destruct (load_rows_raise _ _ _ Hr Hrow) as [e He].
  exists e. unfold start_orchestration, load_sessions.
  by rewrite Hav, Hok, He.
Qed.

Lemma load_sessions_corrupt_row_witness :
  ∃ e,
    load_sessions
      {| sqlite3_available := true; database_fault := false;
         sessions_table :=
           [Example.stale_row;
            mkRow (SText "s9") SNull SNull SNull SNull SNull SNull SNull] |}
    = Raise e.
Proof.
  destruct (load_sessions_corrupt_row
              {| sqlite3_available := true; database_fault := false;
                 sessions_table :=
                   [Example.stale_row;
                    mkRow (SText "s9") SNull SNull SNull SNull SNull SNull
                      SNull] |}
              (mkRow (SText "s9") SNull SNull SNull SNull SNull SNull SNull)
              SessionManager_init) as (e & Hload & _); try done.
  - right. left.
  - by exists e.
Defined.



(** ** The start-up *)

Lemma dict_set_elem {K V} `{EqDecision K} (k : K) (v : V) d p :
  p ∈ dict_set k v d → p = (k, v) ∨ p ∈ d.
Proof.
  induction d as [|[k' v'] d IH]; simpl.
  - intros ->%list_elem_of_singleton. by left.
  - destruct (decide (k = k')) as [->|Hne].
    + intros [->|Hin]%elem_of_cons; [by left|]. right. by right.
    + intros [->|Hin]%elem_of_cons; [right; left|].
      destruct (IH Hin) as [->|?]; [by left|]. right. by right.
Qed.

Lemma dict_set_NoDup {K V} `{EqDecision K} (k : K) (v : V) d :
  NoDup (dict_keys d) → NoDup (dict_keys (dict_set k v d)).
Proof.
  unfold dict_keys. induction d as [|[k' v'] d IH]; simpl.
  - intros _. apply NoDup_singleton.
  - intros [Hk' Hnd]%NoDup_cons. destruct (decide (k = k')) as [->|Hne].
    + simpl. by apply NoDup_cons.
    + rewrite fmap_cons. apply NoDup_cons. split; [|by apply IH].
      intros (p & Hp & [->|Hin]%dict_set_elem)%list_elem_of_fmap.
      * by apply Hne.
      * apply Hk'. apply list_elem_of_fmap. by exists p.
Qed.

Section StartUp.
Context `{Runtime}.

Lemma load_row_datetime r s :
  load_row r = Return s →
  (∃ t, last_activity s = VDatetime t) ∧
  is_Some (dict_key (session_id s)).
Proof.
  unfold load_row.
  destruct (c_last_activity r) as [| | |ts]; simpl; try done.
  destruct (fromisoformat ts); simpl; [|done].
  assert (Hkey : is_Some (dict_key (py_of_sql (c_session_id r))))
    by (destruct (c_session_id r); simpl; by eexists).
  destruct (truthy (c_resources_used r)); simpl.
  - destruct (c_resources_used r) as [| | |js]; simpl; try done.
    destruct (json_loads js); simpl; [|done].
    intros [= <-]. split; [by eexists|done].
  - intros [= <-]. split; [by eexists|done].
Qed.

Lemma load_existing_well_formed sessions sm :
  well_formed sm →
  (∀ s, s ∈ sessions → ∃ t, last_activity s = VDatetime t) →
  well_formed (load_existing sessions sm).1.
Proof.
  revert sm. induction sessions as [|s sessions IH]; intros sm Hsm Hall;
    [done|].
  cbn [load_existing]. destruct (dict_key (session_id s)) as [k|]; [|done].
  apply IH; [|intros s' Hs'; apply Hall; by right].
  destruct Hsm as [Hnd Hwf]. split.
  - by apply dict_set_NoDup.
  - cbn [active_sessions objects].
    intros k' l' [[= -> ->]|Hin]%dict_set_elem.
    + destruct (Hall s) as [t Ht]; [left|].
      exists s, t. split; [apply list_lookup_middle|]; done.
    + destruct (Hwf k' l' Hin) as (s' & t & Hs' & Ht).
      exists s', t. split; [|done]. rewrite lookup_app_l; [done|].
      by eapply lookup_lt_Some.
Qed.

Lemma load_existing_returns sessions sm :
  (∀ s, s ∈ sessions → is_Some (dict_key (session_id s))) →
  (load_existing sessions sm).2 = Return tt.
Proof.
  revert sm. induction sessions as [|s sessions IH]; intros sm Hall; [done|].
  cbn [load_existing]. destruct (Hall s) as [k ->]; [left|].
  apply IH. intros s' Hs'. apply Hall. by right.
Qed.
End StartUp.

(** The start-up leaves a well-formed registry: whatever rows the table
    holds, when they load, the sessions are put in the registry one id
    once, each with a datetime as [last_activity], and the start-up
    returns without an exception. *)
Theorem start_orchestration_well_formed `{Runtime} (db : Storage)
    (sm : SessionManager) :
  well_formed sm →
  well_formed (start_orchestration db sm).1 ∧
  (∀ sessions, load_sessions db = Return sessions →
     (start_orchestration db sm).2 = Return tt).
Proof.
  intros Hsm. unfold start_orchestration.
  destruct (load_sessions db) as [sessions|e] eqn:Hload.
  - assert (Hrows : ∀ s, s ∈ sessions →
      (∃ t, last_activity s = VDatetime t) ∧
      is_Some (dict_key (session_id s))).
    { unfold load_sessions in Hload.
      destruct (negb (sqlite3_available db)).
      { injection Hload as <-. by intros s ?%elem_of_nil. }
      destruct (database_fault db); [done|].
      intros s Hs. apply (load_rows_elem _ _ Hload) in Hs as (r & _ & Hr).
      by eapply load_row_datetime. }
    split.
    + apply load_existing_well_formed; [done|]. intros s Hs.
      by apply Hrows.
    + intros _ _. apply load_existing_returns. intros s Hs. by apply Hrows.
  - split; [done|]. by intros sessions.
Qed.

Lemma start_orchestration_well_formed_witness :
  well_formed
    (start_orchestration Example.stale_storage Example.one_session).1 ∧
  (start_orchestration Example.stale_storage Example.one_session).2
  = Return tt.
Proof.
  destruct (start_orchestration_well_formed Example.stale_storage
              Example.one_session one_session_well_formed) as [Hwf Hret].
  split; [exact Hwf|]. by eapply Hret.
Defined.

(** ** A restart *)


Section Restart.
Context `{Runtime}.


End Restart.



(** ** Ids that are numbers *)

Lemma dict_key_number (z : Z) (q : Q) :
  (q == inject_Z z)%Q → dict_key (VFloat q) = dict_key (VInt z).
Proof. intros Hq. simpl. do 2 f_equal. by apply Qred_complete. Qed.

(** The registry takes ids that are equal as numbers for one id: once a
    session is registered under an integer, a registration under the float
    of the same value (and, for 1 and 0, under True and False) returns
    False and changes nothing. *)
Theorem register_session_equal_numbers (now now' : Z) (z : Z) (q : Q)
    (uid uid' : pyval) (sm : SessionManager) :
  (q == inject_Z z)%Q →
  dict_get (KNum (Qred (inject_Z z))) (active_sessions sm) = None →
  register_session now' (VFloat q) uid'
    (register_session now (VInt z) uid sm).1
  = ((register_session now (VInt z) uid sm).1, Return false) ∧
  (∀ b : bool, z = (if b then 1 else 0) →
   register_session now' (VBool b) uid'
     (register_session now (VInt z) uid sm).1
   = ((register_session now (VInt z) uid sm).1, Return false)).
Proof.
  intros Hq Hfree.
  destruct (register_session_fresh now (VInt z) uid _ sm eq_refl Hfree)
    as (sm' & Hreg & Hrec).
  rewrite Hreg. cbn [fst].
  assert (Htaken : is_Some (dict_get (KNum (Qred (inject_Z z)))
                              (active_sessions sm'))).
  { unfold record_of in Hrec.
    destruct (dict_get _ (active_sessions sm')); [by eexists|done]. }
  split.
  - apply (register_session_taken now' (VFloat q) uid'
             (KNum (Qred (inject_Z z))) sm'); [|done].
    by rewrite (dict_key_number z q).
  - intros b Hz. subst z.
    by apply (register_session_taken now' (VBool b) uid'
                (KNum (Qred (inject_Z (if b then 1 else 0)))) sm').
Qed.

Lemma register_session_equal_numbers_witness :
  register_session 2000 (VFloat (2 # 2)) (VStr "u2")
    (register_session 1000 (VInt 1) (VStr "u1") SessionManager_init).1
  = ((register_session 1000 (VInt 1) (VStr "u1") SessionManager_init).1,
     Return false) ∧
  register_session 2000 (VBool true) (VStr "u2")
    (register_session 1000 (VInt 1) (VStr "u1") SessionManager_init).1
  = ((register_session 1000 (VInt 1) (VStr "u1") SessionManager_init).1,
     Return false).
Proof.
  destruct (register_session_equal_numbers 1000 2000 1 (2 # 2) (VStr "u1")
              (VStr "u2") SessionManager_init) as [Hfloat Hbool];
    [reflexivity | reflexivity |].
  split; [exact Hfloat|]. by apply (Hbool true).
Defined.

(** ** The periodic sweep, when a session is damaged *)

(** When a registered session has a [last_activity] that is no datetime,
    a turn of the periodic task raises the TypeError of the sweep before
    the broadcast: no session is removed, no client is sent the event, and
    the exception leaves the loop of the task. *)
Theorem cleanup_sessions_blocked `{Runtime} (now now' : Z) (st : hub)
    (k : key) (l : loc) (s : Session) :
  (∀ k' l', (k', l') ∈ active_sessions (session_manager st.1) →
     is_Some (objects (session_manager st.1) !! l')) →
  (k, l) ∈ active_sessions (session_manager st.1) →
  objects (session_manager st.1) !! l = Some s →
  (∀ t, last_activity s ≠ VDatetime t) →
  (cleanup_sessions now now' st).2 = Raise unsupported_operand ∧
  session_manager (cleanup_sessions now now' st).1.1 = session_manager st.1 ∧
  clients (cleanup_sessions now now' st).1.1 = clients st.1 ∧
  (cleanup_sessions now now' st).1.2 = st.2.
Proof.
  intros Hrefs Hin Hs Hbad. unfold cleanup_sessions, cleanup_inactive_sessions.
  by rewrite (inactive_sessions_blocked _ _ _ _ k l s).
Qed.

Lemma cleanup_sessions_blocked_witness :
  (cleanup_sessions 9000000000 9000000001
     (with_manager Example.four_clients.1
        (update_session 2000 (VStr "s1")
           [("last_activity", VInt 5); ("__class__", VInt 1)]
           Example.one_session).1,
      Example.four_clients.2)).2
  = Raise unsupported_operand.
Proof.
  apply (cleanup_sessions_blocked 9000000000 9000000001 _ (KStr "s1") 0%nat
           (set_field Flast_activity (VInt 5) Example.s1)).
  - intros k' l' [[= -> ->]|Hin%elem_of_nil]%elem_of_cons; [|done].
    by eexists.
  - left.
  - reflexivity.
  - intros t. discriminate.
Defined.

